(** * ROS2Interface: a shallow embedding of the node session facade

    The facade of [src/webpack.config.js] (class [ROS2Interface]) owns one
    rclnodejs node handle, an initialisation flag and four caches.  Every
    method either fails on the initialisation guard or forwards to
    rclnodejs.  rclnodejs itself is not part of the repository: it is
    modelled as an oracle that answers each call from the history of the
    calls made so far, and that may raise on any call.  The history of
    calls is kept in the state, so that "which underlying calls were made"
    is a statement about a list.

    Asynchronous methods are modelled run to completion: an [await] is a
    plain sequencing point, and a rejected promise is the same failure as
    a raised error. *)

From stdpp Require Import gmap strings list fin_maps.
From Stdlib Require Import ZArith.

Local Open Scope string_scope.
Local Open Scope Z_scope.
Local Open Scope list_scope.

(** ** JavaScript values and errors *)

(** Objects handed out by rclnodejs (nodes, publishers, subscriptions,
    clients, goal handles, parameters) and callbacks are compared by
    identity only. *)
Abbreviation Handle := nat (only parsing).

(** Payloads (messages, requests, goals, parameter values) are opaque to
    the facade. *)
Inductive JsVal :=
| JUndefined
| JNull
| JBool (b : bool)
| JNum (z : Z)
| JStr (s : string)
| JObj (id : nat).

(** What a method can raise: an [Error] built by the facade itself, an
    error raised inside rclnodejs and passed on untouched, or the runtime's
    [TypeError] for a property access on [null] or [undefined]. *)
Inductive Exn :=
| FacadeError (msg : string)
| MwError (msg : string)
| TypeError (msg : string).

Definition message (e : Exn) : string :=
  match e with
  | FacadeError m => m
  | MwError m => m
  | TypeError m => m
  end.

Definition dq : string := String (Ascii.ascii_of_nat 34) EmptyString.

(** The five messages of the facade. *)
Definition NotInitialized : Exn :=
  FacadeError "ROS2Interface not initialized. Call init() first.".
Definition InitializationFailed (cause : string) : Exn :=
  FacadeError ("ROS 2 initialization failed: " +:+ cause).
Definition ServiceUnavailable (serviceName : string) : Exn :=
  FacadeError ("Service " +:+ dq +:+ serviceName +:+ dq +:+ " not available.").
Definition ActionServerUnavailable (actionName : string) : Exn :=
  FacadeError ("Action server " +:+ dq +:+ actionName +:+ dq +:+ " not available.").
Definition GoalRejected : Exn :=
  FacadeError "Action goal rejected.".

Definition null_deref : Exn :=
  TypeError "Cannot read properties of null".
Definition undefined_deref : Exn :=
  TypeError "Cannot read properties of undefined".

(** ** The calls the facade makes into its environment *)

Inductive Call :=
| RclInit
| RclNode (nodeName namespace : string)
| NodeSpin (node : Handle) (timeout : Z)
| ConsoleInfo (msg : string)
| NodeCreatePublisher (node : Handle) (msgType topicName : string)
| PublisherPublish (publisher : Handle) (msg : JsVal)
| NodeCreateSubscription (node : Handle) (msgType topicName : string)
    (callback : Handle)
| NodeDestroySubscription (node : Handle) (subscription : Handle)
| NodeCreateClient (node : Handle) (serviceType serviceName : string)
| ClientWaitForService (client : Handle) (timeoutMs : Z)
| ClientSendRequest (client : Handle) (request : JsVal)
| RclActionClient (node : option Handle) (actionType actionName : string)
| ActionWaitForServer (client : Handle) (timeoutMs : Z)
| ActionSendGoal (client : Handle) (goal : JsVal) (onFeedback : option Handle)
| GoalIsAccepted (goalHandle : Handle)
| GoalGetResult (goalHandle : Handle)
| NodeHasParameter (node : Handle) (name : string)
| NodeDeclareParameter (node : Handle) (name : string) (defaultValue : JsVal)
| RclParameter (name : string) (value : JsVal)
| NodeSetParameter (node : Handle) (parameter : Handle)
| NodeGetParameter (node : Handle) (name : string)
| NodeDestroy (node : Handle)
| RclShutdown.

(** The type of what each call gives back when it returns normally.
    [NodeGetParameter] gives the parameter's value, or nothing when the
    node answers with no parameter object. *)
Definition reply (c : Call) : Type :=
  match c with
  | RclNode _ _ | NodeCreatePublisher _ _ _ | NodeCreateSubscription _ _ _ _
  | NodeCreateClient _ _ _ | RclActionClient _ _ _ | ActionSendGoal _ _ _
  | RclParameter _ _ => Handle
  | ClientWaitForService _ _ | ActionWaitForServer _ _ | GoalIsAccepted _
  | NodeHasParameter _ _ => bool
  | ClientSendRequest _ _ | GoalGetResult _ => JsVal
  | NodeGetParameter _ _ => option JsVal
  | _ => unit
  end.

Inductive Outcome (A : Type) :=
| Ret (a : A)
| Throw (msg : string).
Arguments Ret {A} a.
Arguments Throw {A} msg.

(** rclnodejs as an oracle: the answer to a call may depend on every call
    made before it. *)
Definition Middleware : Type :=
  ∀ (history : list Call) (c : Call), Outcome (reply c).

(** ** The session *)

Record Session := mkSession {
  nodeName : string;
  namespace : string;
  spinTimeout : Z;
  node : option Handle;
  publishers : gmap string Handle;
  subscriptions : gmap string (gset Handle);
  clients : gmap string Handle;
  actionClients : gmap string Handle;
  isInitialized : bool
}.

Record World := mkWorld {
  this : Session;
  trace : list Call
}.

Definition set_node (n : option Handle) (s : Session) : Session :=
  mkSession (nodeName s) (namespace s) (spinTimeout s) n (publishers s)
    (subscriptions s) (clients s) (actionClients s) (isInitialized s).
Definition set_isInitialized (b : bool) (s : Session) : Session :=
  mkSession (nodeName s) (namespace s) (spinTimeout s) (node s) (publishers s)
    (subscriptions s) (clients s) (actionClients s) b.
Definition upd_publishers (f : gmap string Handle → gmap string Handle)
    (s : Session) : Session :=
  mkSession (nodeName s) (namespace s) (spinTimeout s) (node s)
    (f (publishers s)) (subscriptions s) (clients s) (actionClients s)
    (isInitialized s).
Definition upd_subscriptions
    (f : gmap string (gset Handle) → gmap string (gset Handle))
    (s : Session) : Session :=
  mkSession (nodeName s) (namespace s) (spinTimeout s) (node s) (publishers s)
    (f (subscriptions s)) (clients s) (actionClients s) (isInitialized s).
Definition upd_clients (f : gmap string Handle → gmap string Handle)
    (s : Session) : Session :=
  mkSession (nodeName s) (namespace s) (spinTimeout s) (node s) (publishers s)
    (subscriptions s) (f (clients s)) (actionClients s) (isInitialized s).
Definition upd_actionClients (f : gmap string Handle → gmap string Handle)
    (s : Session) : Session :=
  mkSession (nodeName s) (namespace s) (spinTimeout s) (node s) (publishers s)
    (subscriptions s) (clients s) (f (actionClients s)) (isInitialized s).

(** [constructor]: absent arguments take the defaults of the source. *)
Definition constructor (nodeName namespace : option string)
    (spinTimeout : option Z) : Session :=
  mkSession (default "ros2_interface_node" nodeName) (default "/" namespace)
    (default 100 spinTimeout) None ∅ ∅ ∅ ∅ false.

(** ** Methods run in a state and exception monad *)

Inductive Res (A : Type) :=
| Ok (a : A)
| Err (e : Exn).
Arguments Ok {A} a.
Arguments Err {A} e.

Definition M (A : Type) : Type := World → Res A * World.

Definition ret {A} (a : A) : M A := λ w, (Ok a, w).
Definition bind {A B} (m : M A) (k : A → M B) : M B :=
  λ w, match m w with
       | (Ok a, w') => k a w'
       | (Err e, w') => (Err e, w')
       end.
Definition throw {A} (e : Exn) : M A := λ w, (Err e, w).
Definition try_catch {A} (m : M A) (handler : Exn → M A) : M A :=
  λ w, match m w with
       | (Ok a, w') => (Ok a, w')
       | (Err e, w') => handler e w'
       end.
Definition gets {A} (f : Session → A) : M A := λ w, (Ok (f (this w)), w).
Definition modify (f : Session → Session) : M unit :=
  λ w, (Ok tt, mkWorld (f (this w)) (trace w)).
Definition log (c : Call) : M unit :=
  λ w, (Ok tt, mkWorld (this w) (trace w ++ [c])).

Declare Scope js_scope.
Delimit Scope js_scope with js.
Notation "x <- m ;; k" := (bind m (λ x, k))
  (at level 100, m at next level, right associativity) : js_scope.
Notation "m ;;; k" := (bind m (λ _, k))
  (at level 100, right associativity) : js_scope.
Local Open Scope js_scope.

Section Facade.

Variable mw : Middleware.

(** A call into rclnodejs: the call is recorded, and its outcome is the
    oracle's answer on the history before it. *)
Definition call (c : Call) : M (reply c) :=
  λ w, let w' := mkWorld (this w) (trace w ++ [c]) in
       match mw (trace w) c with
       | Ret a => (Ok a, w')
       | Throw msg => (Err (MwError msg), w')
       end.

(** [this.node.f(...)]: reading a member of [this.node] raises when the
    field is [null]. *)
Definition the_node : M Handle :=
  n <- gets node ;;
  match n with
  | Some h => ret h
  | None => throw null_deref
  end.

Definition init : M unit :=
  b <- gets isInitialized ;;
  if b then ret tt
  else
    try_catch
      (call RclInit ;;;
       nn <- gets nodeName ;;
       ns <- gets namespace ;;
       n <- call (RclNode nn ns) ;;
       modify (set_node (Some n)) ;;;
       nd <- the_node ;;
       st <- gets spinTimeout ;;
       call (NodeSpin nd st) ;;;
       modify (set_isInitialized true) ;;;
       nn' <- gets nodeName ;;
       log (ConsoleInfo
              ("ROS 2 node " +:+ dq +:+ nn' +:+ dq +:+ " initialized.")))
      (λ err, throw (InitializationFailed (message err))).

Definition _checkInit : M unit :=
  b <- gets isInitialized ;;
  n <- gets node ;;
  if negb b || negb (bool_decide (is_Some n)) then throw NotInitialized
  else ret tt.

(** *** Topics *)

Definition createPublisher (topicName msgType : string)
    : M (option Handle) :=
  _checkInit ;;;
  pubs <- gets publishers ;;
  (match pubs !! topicName with
   | Some _ => ret tt
   | None =>
       n <- the_node ;;
       publisher <- call (NodeCreatePublisher n msgType topicName) ;;
       modify (upd_publishers (<[topicName := publisher]>))
   end) ;;;
  pubs' <- gets publishers ;;
  ret (pubs' !! topicName).

Definition publish (topicName msgType : string) (msg : JsVal) : M unit :=
  publisher <- createPublisher topicName msgType ;;
  match publisher with
  | Some p => call (PublisherPublish p msg)
  | None => throw undefined_deref
  end.

Definition subscribe (topicName msgType : string) (callback : Handle)
    : M Handle :=
  _checkInit ;;;
  n <- the_node ;;
  subscription <- call (NodeCreateSubscription n msgType topicName callback) ;;
  subsm <- gets subscriptions ;;
  (match subsm !! topicName with
   | Some _ => ret tt
   | None => modify (upd_subscriptions (<[topicName := ∅]>))
   end) ;;;
  subsm' <- gets subscriptions ;;
  match subsm' !! topicName with
  | Some subs =>
      modify (upd_subscriptions (<[topicName := {[subscription]} ∪ subs]>)) ;;;
      ret subscription
  | None => throw undefined_deref
  end.

(** [subs] is the very set stored in the map, so [subs.delete] changes
    the map's entry; the entry is dropped when the set is left empty. *)
Definition unsubscribe (topicName : string) (subscription : Handle)
    : M unit :=
  subsm <- gets subscriptions ;;
  match subsm !! topicName with
  | None => ret tt
  | Some subs =>
      if negb (bool_decide (subscription ∈ subs)) then ret tt
      else
        n <- the_node ;;
        call (NodeDestroySubscription n subscription) ;;;
        let subs' := subs ∖ {[subscription]} in
        modify (upd_subscriptions (<[topicName := subs']>)) ;;;
        if bool_decide (size subs' = 0%nat)
        then modify (upd_subscriptions (delete topicName))
        else ret tt
  end.

(** *** Services *)

(** The first statements of [callService]: the cached client of the
    service, or a new one, cached as soon as it is created. *)
Definition service_client (serviceName serviceType : string) : M Handle :=
  cs <- gets clients ;;
  match cs !! serviceName with
  | Some c => ret c
  | None =>
      n <- the_node ;;
      c <- call (NodeCreateClient n serviceType serviceName) ;;
      modify (upd_clients (<[serviceName := c]>)) ;;;
      ret c
  end.

Definition callService (serviceName serviceType : string) (request : JsVal)
    (timeoutMs : option Z) : M JsVal :=
  let timeoutMs := default 2000 timeoutMs in
  _checkInit ;;;
  client <- service_client serviceName serviceType ;;
  available <- call (ClientWaitForService client timeoutMs) ;;
  if negb available then throw (ServiceUnavailable serviceName)
  else call (ClientSendRequest client request).

(** *** Actions *)

(** The first statements of [sendActionGoal]: the cached action client,
    or a new one built on [this.node] and cached. *)
Definition action_client (actionName actionType : string) : M Handle :=
  acs <- gets actionClients ;;
  match acs !! actionName with
  | Some c => ret c
  | None =>
      n <- gets node ;;
      c <- call (RclActionClient n actionType actionName) ;;
      modify (upd_actionClients (<[actionName := c]>)) ;;;
      ret c
  end.

Definition sendActionGoal (actionName actionType : string) (goal : JsVal)
    (onFeedback : option Handle) (timeoutMs : option Z) : M JsVal :=
  let timeoutMs := default 2000 timeoutMs in
  _checkInit ;;;
  client <- action_client actionName actionType ;;
  ready <- call (ActionWaitForServer client timeoutMs) ;;
  if negb ready then throw (ActionServerUnavailable actionName)
  else
    goalHandle <- call (ActionSendGoal client goal onFeedback) ;;
    accepted <- call (GoalIsAccepted goalHandle) ;;
    if negb accepted then throw GoalRejected
    else call (GoalGetResult goalHandle).

(** *** Parameters *)

Definition declareParam (name : string) (defaultValue : JsVal) : M unit :=
  _checkInit ;;;
  n <- the_node ;;
  present <- call (NodeHasParameter n name) ;;
  if negb present then
    n' <- the_node ;;
    call (NodeDeclareParameter n' name defaultValue)
  else ret tt.

Definition setParam (name : string) (value : JsVal) : M unit :=
  _checkInit ;;;
  n <- the_node ;;
  parameter <- call (RclParameter name value) ;;
  call (NodeSetParameter n parameter).

Definition getParam (name : string) : M JsVal :=
  _checkInit ;;;
  n <- the_node ;;
  parameter <- call (NodeGetParameter n name) ;;
  ret (default JUndefined parameter).

(** *** Shutdown *)

Definition shutdown : M unit :=
  b <- gets isInitialized ;;
  if negb b then ret tt
  else
    modify (upd_publishers (λ _, ∅)) ;;;
    modify (upd_subscriptions (λ _, ∅)) ;;;
    modify (upd_clients (λ _, ∅)) ;;;
    modify (upd_actionClients (λ _, ∅)) ;;;
    n <- the_node ;;
    call (NodeDestroy n) ;;;
    call RclShutdown ;;;
    modify (set_node None) ;;;
    modify (set_isInitialized false).

(** ** The public surface as one transition system *)

Inductive Op :=
| OpInit
| OpCreatePublisher (topicName msgType : string)
| OpPublish (topicName msgType : string) (msg : JsVal)
| OpSubscribe (topicName msgType : string) (callback : Handle)
| OpUnsubscribe (topicName : string) (subscription : Handle)
| OpCallService (serviceName serviceType : string) (request : JsVal)
    (timeoutMs : option Z)
| OpSendActionGoal (actionName actionType : string) (goal : JsVal)
    (onFeedback : option Handle) (timeoutMs : option Z)
| OpDeclareParam (name : string) (defaultValue : JsVal)
| OpSetParam (name : string) (value : JsVal)
| OpGetParam (name : string)
| OpShutdown.

(** What a method hands back to its caller. *)
Inductive Returned :=
| RVoid
| RHandle (h : option Handle)
| RVal (v : JsVal).

Definition returning {A} (f : A → Returned) (m : M A) : M Returned :=
  a <- m ;; ret (f a).

Definition run_op (op : Op) : M Returned :=
  match op with
  | OpInit => returning (λ _, RVoid) init
  | OpCreatePublisher t ty => returning RHandle (createPublisher t ty)
  | OpPublish t ty m => returning (λ _, RVoid) (publish t ty m)
  | OpSubscribe t ty cb => returning (λ h, RHandle (Some h)) (subscribe t ty cb)
  | OpUnsubscribe t h => returning (λ _, RVoid) (unsubscribe t h)
  | OpCallService s ty r tm => returning RVal (callService s ty r tm)
  | OpSendActionGoal a ty g fb tm =>
      returning RVal (sendActionGoal a ty g fb tm)
  | OpDeclareParam n v => returning (λ _, RVoid) (declareParam n v)
  | OpSetParam n v => returning (λ _, RVoid) (setParam n v)
  | OpGetParam n => returning RVal (getParam n)
  | OpShutdown => returning (λ _, RVoid) shutdown
  end.

(** The states a session can be in: the one the constructor builds, and
    every state a method call leaves behind, whatever it returned. *)
Inductive reachable : World → Prop :=
| reach_new nn ns st : reachable (mkWorld (constructor nn ns st) [])
| reach_step w op : reachable w → reachable (run_op op w).2.

End Facade.

Arguments reachable mw w : assert.

(** ** Observations on sessions and histories *)

(** The guard of [_checkInit] passes exactly on these sessions. *)
Definition ready (s : Session) : bool :=
  isInitialized s && bool_decide (is_Some (node s)).

Definition caches_empty (s : Session) : Prop :=
  publishers s = ∅ ∧ subscriptions s = ∅ ∧ clients s = ∅ ∧
  actionClients s = ∅.

(** What every reachable session satisfies. *)
Definition session_inv (s : Session) : Prop :=
  (isInitialized s = false → caches_empty s) ∧
  (isInitialized s = true → is_Some (node s)).

(** A middleware on which a parameter is present right after a declare
    call for it returned. *)
Definition declare_is_seen (mw : Middleware) : Prop :=
  ∀ history n name v,
    mw history (NodeDeclareParameter n name v) = Ret tt →
    mw (history ++ [NodeDeclareParameter n name v]) (NodeHasParameter n name)
    = Ret true.

(** The methods behind the initialisation guard of the source. *)
Definition guarded (op : Op) : bool :=
  match op with
  | OpInit | OpShutdown | OpUnsubscribe _ _ => false
  | _ => true
  end.

Definition is_create_publisher (topicName : string) (c : Call) : bool :=
  match c with
  | NodeCreatePublisher _ _ t => bool_decide (t = topicName)
  | _ => false
  end.
Definition is_send_request (c : Call) : bool :=
  match c with ClientSendRequest _ _ => true | _ => false end.
Definition is_get_result (c : Call) : bool :=
  match c with GoalGetResult _ => true | _ => false end.
Definition is_declare (name : string) (c : Call) : bool :=
  match c with
  | NodeDeclareParameter _ n _ => bool_decide (n = name)
  | _ => false
  end.

Definition count (p : Call → bool) (history : list Call) : nat :=
  length (List.filter p history).

(** A method's result from an oracle's answer. *)
Definition of_outcome {A} (o : Outcome A) : Res A :=
  match o with
  | Ret a => Ok a
  | Throw msg => Err (MwError msg)
  end.

Definition record (c : Call) (w : World) : World :=
  mkWorld (this w) (trace w ++ [c]).

(** [createPublisher] called once per message type of a list, in order,
    on one topic. *)
Fixpoint createPublisher_each (mw : Middleware) (topicName : string)
    (msgTypes : list string) : M (list (option Handle)) :=
  match msgTypes with
  | [] => ret []
  | ty :: rest =>
      p <- createPublisher mw topicName ty ;;
      ps <- createPublisher_each mw topicName rest ;;
      ret (p :: ps)
  end.

(** A caller's run: methods called one after the other, each started in
    the state the one before left, whatever it returned. *)
Fixpoint run_ops (mw : Middleware) (ops : list Op) (w : World) : World :=
  match ops with
  | [] => w
  | op :: rest => run_ops mw rest (run_op mw op w).2
  end.

(** ** Scripted stand-ins for rclnodejs, for concrete runs *)

Record Script := mkScript {
  context_error : option string;
  node_error : option string;
  service_up : bool;
  goal_accepted : bool
}.

Definition fail_with {A} (e : option string) (a : A) : Outcome A :=
  match e with
  | Some msg => Throw msg
  | None => Ret a
  end.

(** Handles are numbered by the position of the call that made them; a
    parameter is present once a declare call for it is in the history. *)
Definition scripted (sc : Script) : Middleware :=
  λ history c,
    match c return Outcome (reply c) with
    | RclInit => fail_with (context_error sc) tt
    | RclNode _ _ => fail_with (node_error sc) (length history)
    | NodeSpin _ _ => Ret tt
    | ConsoleInfo _ => Ret tt
    | NodeCreatePublisher _ _ _ => Ret (length history)
    | PublisherPublish _ _ => Ret tt
    | NodeCreateSubscription _ _ _ _ => Ret (length history)
    | NodeDestroySubscription _ _ => Ret tt
    | NodeCreateClient _ _ _ => Ret (length history)
    | ClientWaitForService _ _ => Ret (service_up sc)
    | ClientSendRequest _ request => Ret request
    | RclActionClient _ _ _ => Ret (length history)
    | ActionWaitForServer _ _ => Ret true
    | ActionSendGoal _ _ _ => Ret (length history)
    | GoalIsAccepted _ => Ret (goal_accepted sc)
    | GoalGetResult _ => Ret (JStr "done")
    | NodeHasParameter _ name => Ret (existsb (is_declare name) history)
    | NodeDeclareParameter _ _ _ => Ret tt
    | RclParameter _ _ => Ret (length history)
    | NodeSetParameter _ _ => Ret tt
    | NodeGetParameter _ _ => Ret None
    | NodeDestroy _ => Ret tt
    | RclShutdown => Ret tt
    end.

Definition healthy : Middleware := scripted (mkScript None None true true).
Definition no_context : Middleware :=
  scripted (mkScript (Some "rcl context") None true true).
Definition no_node : Middleware :=
  scripted (mkScript None (Some "invalid node name") true true).
Definition service_down : Middleware :=
  scripted (mkScript None None false true).
Definition rejecting : Middleware :=
  scripted (mkScript None None true false).

Definition fresh : World := mkWorld (constructor None None None) [].
Definition started : World := (run_op healthy OpInit fresh).2.
Definition subscribed : World :=
  (run_op healthy (OpSubscribe "/chatter" "std_msgs/msg/String" 3%nat)
     started).2.
Definition stopped : World := (run_op healthy OpShutdown subscribed).2.

(** ** Further observations *)

(** Which cache a method may write. *)
Definition writes_publishers (op : Op) : bool :=
  match op with
  | OpCreatePublisher _ _ | OpPublish _ _ _ | OpShutdown => true
  | _ => false
  end.
Definition writes_subscriptions (op : Op) : bool :=
  match op with
  | OpSubscribe _ _ _ | OpUnsubscribe _ _ | OpShutdown => true
  | _ => false
  end.
Definition writes_clients (op : Op) : bool :=
  match op with
  | OpCallService _ _ _ _ | OpShutdown => true
  | _ => false
  end.
Definition writes_actionClients (op : Op) : bool :=
  match op with
  | OpSendActionGoal _ _ _ _ _ | OpShutdown => true
  | _ => false
  end.

(** The handle is in the set the session keeps for the topic. *)
Definition tracked (s : Session) (topicName : string) (h : Handle) : Prop :=
  ∃ subs, subscriptions s !! topicName = Some subs ∧ h ∈ subs.

(** No topic is mapped to an empty set. *)
Definition no_empty_sets (s : Session) : Prop :=
  ∀ topicName subs, subscriptions s !! topicName = Some subs → subs ≠ ∅.

Definition is_create_subscription (topicName : string) (c : Call) : bool :=
  match c with
  | NodeCreateSubscription _ _ t _ => bool_decide (t = topicName)
  | _ => false
  end.
Definition is_create_client (serviceName : string) (c : Call) : bool :=
  match c with
  | NodeCreateClient _ _ s => bool_decide (s = serviceName)
  | _ => false
  end.
Definition is_wait_for_service (c : Call) : bool :=
  match c with ClientWaitForService _ _ => true | _ => false end.
Definition is_send_goal (c : Call) : bool :=
  match c with ActionSendGoal _ _ _ => true | _ => false end.
Definition is_publish (c : Call) : bool :=
  match c with PublisherPublish _ _ => true | _ => false end.
Definition is_set_parameter (c : Call) : bool :=
  match c with NodeSetParameter _ _ => true | _ => false end.
Definition is_context_shutdown (c : Call) : bool :=
  match c with RclShutdown => true | _ => false end.
Definition is_destroy (c : Call) : bool :=
  match c with NodeDestroy _ => true | _ => false end.

(** A stand-in that answers the calls [pick] chooses as [pick] says and
    every other call as [base] does. *)
Definition override (pick : ∀ c : Call, option (Outcome (reply c)))
    (base : Middleware) : Middleware :=
  λ history c,
    match pick c with
    | Some answer => answer
    | None => base history c
    end.

Definition spin_fails : Middleware :=
  override (λ c, match c return option (Outcome (reply c)) with
                 | NodeSpin _ _ => Some (Throw "already spinning")
                 | _ => None
                 end) healthy.
Definition destroy_fails : Middleware :=
  override (λ c, match c return option (Outcome (reply c)) with
                 | NodeDestroy _ => Some (Throw "node busy")
                 | NodeDestroySubscription _ _ => Some (Throw "unknown handle")
                 | _ => None
                 end) healthy.
Definition context_stuck : Middleware :=
  override (λ c, match c return option (Outcome (reply c)) with
                 | RclShutdown => Some (Throw "context in use")
                 | _ => None
                 end) healthy.
Definition creation_fails : Middleware :=
  override (λ c, match c return option (Outcome (reply c)) with
                 | NodeCreatePublisher _ _ _ => Some (Throw "bad type")
                 | NodeCreateSubscription _ _ _ _ => Some (Throw "bad type")
                 | RclParameter _ _ => Some (Throw "bad value")
                 | _ => None
                 end) healthy.
Definition server_down : Middleware :=
  override (λ c, match c return option (Outcome (reply c)) with
                 | ActionWaitForServer _ _ => Some (Ret false)
                 | _ => None
                 end) healthy.
Definition with_rate : Middleware :=
  override (λ c, match c return option (Outcome (reply c)) with
                 | NodeGetParameter _ name =>
                     if bool_decide (name = "rate")
                     then Some (Ret (Some (JNum 10)))
                     else None
                 | _ => None
                 end) healthy.

Definition type_checked : Middleware :=
  override (λ c, match c return option (Outcome (reply c)) with
                 | NodeCreatePublisher _ ty _ =>
                     if bool_decide (ty = "geometry_msgs/Twist")
                     then Some (Throw "bad type")
                     else None
                 | _ => None
                 end) healthy.

(** A middleware whose [spin] never raises. *)
Definition spin_returns (mw : Middleware) : Prop :=
  ∀ history n timeout, mw history (NodeSpin n timeout) = Ret tt.

Definition is_context_init (c : Call) : bool :=
  match c with RclInit => true | _ => false end.

(** As [spin_fails], and the context comes up once only: a later
    [rclnodejs.init()] raises. *)
Definition context_once : Middleware :=
  λ history c,
    match c as c0 return Outcome (reply c0) with
    | RclInit =>
        if existsb is_context_init history
        then Throw "context already initialized"
        else Ret tt
    | c0 => spin_fails history c0
    end.

(** The session after an [init] whose [spin] raised. *)
Definition stranded : World := (run_op context_once OpInit fresh).2.

Definition published : World :=
  (run_op healthy (OpCreatePublisher "/cmd_vel" "geometry_msgs/msg/Twist")
     started).2.

(** * Properties *)

(** ** Proof support *)

Lemma bind_ok {A B} (m : M A) (k : A → M B) w a w' :
  m w = (Ok a, w') → bind m k w = k a w'.
Proof. intros H. unfold bind. by rewrite H. Qed.

Lemma bind_err {A B} (m : M A) (k : A → M B) w e w' :
  m w = (Err e, w') → bind m k w = (Err e, w').
Proof. intros H. unfold bind. by rewrite H. Qed.

Lemma ready_true s :
  ready s = true ↔ isInitialized s = true ∧ ∃ n, node s = Some n.
Proof.
  unfold ready. rewrite andb_true_iff, bool_decide_eq_true. split.
  - intros [Hi [n Hn]]. eauto.
  - intros [Hi [n Hn]]. split; [done | by exists n].
Qed.

Lemma ready_false s :
  ready s = false ↔ isInitialized s = false ∨ node s = None.
Proof.
  unfold ready. rewrite andb_false_iff, bool_decide_eq_false. split.
  - intros [Hi | Hn]; [by left | right].
    destruct (node s); [exfalso; apply Hn; eauto | done].
  - intros [Hi | Hn]; [by left | right]. rewrite Hn. by intros [? ?].
Qed.

Lemma checkInit_fails w :
  ready (this w) = false → _checkInit w = (Err NotInitialized, w).
Proof.
  unfold ready, _checkInit, bind, gets, throw, ret. simpl.
  destruct (isInitialized (this w)); simpl; [| done].
  intros ->. done.
Qed.

Lemma checkInit_passes w :
  ready (this w) = true → _checkInit w = (Ok tt, w).
Proof.
  unfold ready, _checkInit, bind, gets, throw, ret. simpl.
  destruct (isInitialized (this w)); simpl; [| done].
  intros ->. done.
Qed.

Lemma the_node_some w n : node (this w) = Some n → the_node w = (Ok n, w).
Proof. intros H. unfold the_node, bind, gets, ret. simpl. by rewrite H. Qed.

Lemma call_eq (mw : Middleware) c w :
  call mw c w = (of_outcome (mw (trace w) c), record c w).
Proof. unfold call, of_outcome, record. by destruct (mw (trace w) c). Qed.

(** Symbolic execution of a method body: unfold the monad, then split on
    every oracle answer, flag and cache lookup met on the way. *)
Ltac unfold_methods :=
  unfold run_op, returning, publish, init, shutdown, createPublisher,
    subscribe, unsubscribe, callService, sendActionGoal, service_client,
    action_client, declareParam, setParam, getParam, _checkInit, the_node,
    call, log, try_catch, bind, ret, throw, gets, modify in *.

Ltac exec_step :=
  match goal with
  | |- context [<[?k:=?v]> ?m !! ?k] => rewrite (lookup_insert_eq m k v)
  | |- context [match ?mw ?t ?c with Ret _ => _ | Throw _ => _ end] =>
      let E := fresh "Hmw" in destruct (mw t c) eqn:E
  | |- context [match ?m !! ?k with Some _ => _ | None => _ end] =>
      let E := fresh "Hlk" in destruct (m !! k) eqn:E
  | |- context [match node ?s with Some _ => _ | None => _ end] =>
      let E := fresh "Hnode" in destruct (node s) eqn:E
  | |- context [match ?x with Some _ => _ | None => _ end] =>
      is_var x; destruct x
  | |- context [if negb ?b then _ else _] => destruct b
  | |- context [if bool_decide ?P then _ else _] =>
      destruct (bool_decide P) eqn:?
  | |- context [if ?b then _ else _] => destruct b
  end.

Ltac exec := unfold_methods; simpl; repeat (exec_step; simpl).

Lemma session_inv_step (mw : Middleware) op w :
  session_inv (this w) → session_inv (this (run_op mw op w).2).
Proof.
  destruct w as [[nn ns st nd pubs subs cls acs ini] t].
  unfold session_inv, caches_empty. simpl. intros [Hoff Hon].
  destruct ini.
  - destruct (Hon eq_refl) as [n ->]. clear Hoff Hon.
    destruct op; exec;
      (split; [try discriminate; intros _; repeat split; reflexivity
              | first [discriminate | intros _; eauto]]).
  - destruct (Hoff eq_refl) as (-> & -> & -> & ->). clear Hoff Hon.
    destruct op; destruct nd; exec;
      (split; [try discriminate; intros _; repeat split; reflexivity
              | first [discriminate | intros _; eauto]]).
Qed.

Lemma reachable_inv (mw : Middleware) w :
  reachable mw w → session_inv (this w).
Proof.
  induction 1 as [nn ns st | w op _ IH].
  - split; [intros _; by repeat split | discriminate].
  - by apply session_inv_step.
Qed.

Lemma reachable_uninitialized_empty (mw : Middleware) w :
  reachable mw w → isInitialized (this w) = false → caches_empty (this w).
Proof. intros Hr. by apply (reachable_inv mw w Hr). Qed.

Lemma reachable_initialized_node (mw : Middleware) w :
  reachable mw w → isInitialized (this w) = true → ∃ n, node (this w) = Some n.
Proof. intros Hr Hi. by apply (reachable_inv mw w Hr). Qed.

Lemma guarded_fails (mw : Middleware) op w :
  ready (this w) = false → guarded op = true →
  run_op mw op w = (Err NotInitialized, w).
Proof.
  intros Hr Hg. pose proof (checkInit_fails w Hr) as Hc.
  destruct op; try discriminate Hg; unfold run_op, returning;
    apply bind_err;
    unfold publish, createPublisher, subscribe, callService, sendActionGoal,
      declareParam, setParam, getParam;
    first [ apply bind_err; exact Hc
          | apply bind_err, bind_err; exact Hc ].
Qed.

Lemma unsubscribe_untracked (mw : Middleware) w topicName subscription :
  match subscriptions (this w) !! topicName with
  | None => True
  | Some subs => subscription ∉ subs
  end →
  unsubscribe mw topicName subscription w = (Ok tt, w).
Proof.
  unfold unsubscribe, bind, gets, ret. simpl.
  destruct (subscriptions (this w) !! topicName) as [subs |]; [| done].
  intros Hn. by rewrite bool_decide_eq_false_2.
Qed.

(** ** The initialisation guard *)

(** C1, as stated, fails on [unsubscribe]: on the session the constructor
    builds (never initialised), and again on a session that was shut
    down, the call returns normally instead of raising the
    not-initialized error. *)
Lemma unsubscribe_unguarded_counterexample :
  (reachable healthy fresh ∧
   isInitialized (this fresh) = false ∧
   run_op healthy (OpUnsubscribe "/chatter" 7%nat) fresh = (Ok RVoid, fresh) ∧
   (run_op healthy (OpUnsubscribe "/chatter" 7%nat) fresh).1
     ≠ Err NotInitialized) ∧
  (reachable healthy stopped ∧
   isInitialized (this stopped) = false ∧
   run_op healthy (OpUnsubscribe "/chatter" 4%nat) stopped
   = (Ok RVoid, stopped) ∧
   (run_op healthy (OpUnsubscribe "/chatter" 4%nat) stopped).1
     ≠ Err NotInitialized).
Proof.
  split.
  - split; [apply reach_new |]. split; [reflexivity |].
    split; [reflexivity | discriminate].
  - split.
    + apply (reach_step healthy _ OpShutdown).
      apply (reach_step healthy _
               (OpSubscribe "/chatter" "std_msgs/msg/String" 3%nat)).
      apply (reach_step healthy _ OpInit), reach_new.
    + split; [reflexivity |]. split; [reflexivity | discriminate].
Qed.

(** C1 (amended): while the session is not initialized, each of
    createPublisher, publish, subscribe, callService, sendActionGoal,
    declareParam, setParam and getParam fails with the not-initialized
    error and leaves the session and the history of underlying calls as
    they were; unsubscribe has no guard, and in every reachable
    uninitialized state it returns normally, again changing nothing. *)
Theorem uninitialized_operations (mw : Middleware) w :
  isInitialized (this w) = false →
  (∀ op, guarded op = true → run_op mw op w = (Err NotInitialized, w)) ∧
  (reachable mw w →
   ∀ topicName subscription,
     run_op mw (OpUnsubscribe topicName subscription) w = (Ok RVoid, w)).
Proof.
  intros Hoff. split.
  - intros op Hg. apply guarded_fails; [| done].
    apply ready_false. by left.
  - intros Hr topicName subscription.
    destruct (reachable_uninitialized_empty mw w Hr Hoff) as (_ & He & _).
    unfold run_op, returning.
    rewrite (bind_ok _ _ w tt w); [done |].
    apply unsubscribe_untracked. by rewrite He, lookup_empty.
Qed.

Lemma uninitialized_operations_witness :
  run_op healthy (OpGetParam "rate") fresh = (Err NotInitialized, fresh) ∧
  run_op healthy (OpPublish "/chatter" "std_msgs/msg/String" (JStr "hi"))
    stopped = (Err NotInitialized, stopped) ∧
  run_op healthy (OpUnsubscribe "/chatter" 7%nat) fresh = (Ok RVoid, fresh).
Proof.
  destruct (uninitialized_operations healthy fresh eq_refl) as [Hg Hu].
  split; [exact (Hg (OpGetParam "rate") eq_refl) |].
  split; [| exact (Hu (reach_new healthy None None None) "/chatter" 7%nat)].
  exact (proj1 (uninitialized_operations healthy stopped eq_refl)
           (OpPublish "/chatter" "std_msgs/msg/String" (JStr "hi")) eq_refl).
Defined.

(** C10: unsubscribe on a topic without a tracked set, or with a handle
    that is not in the topic's set, returns normally and changes neither
    the session nor the history of underlying calls, whatever the
    initialisation state; and in no state at all does unsubscribe raise
    the not-initialized error. *)
Theorem unsubscribe_never_guarded (mw : Middleware) w topicName subscription :
  (match subscriptions (this w) !! topicName with
   | None => True
   | Some subs => subscription ∉ subs
   end →
   unsubscribe mw topicName subscription w = (Ok tt, w)) ∧
  (unsubscribe mw topicName subscription w).1 ≠ Err NotInitialized.
Proof.
  split; [apply unsubscribe_untracked |].
  destruct w as [s t]. exec; discriminate.
Qed.

Lemma unsubscribe_never_guarded_witness :
  unsubscribe healthy "/chatter" 7%nat fresh = (Ok tt, fresh) ∧
  (unsubscribe healthy "/chatter" 7%nat fresh).1 ≠ Err NotInitialized.
Proof.
  destruct (unsubscribe_never_guarded healthy fresh "/chatter" 7%nat)
    as [Hsilent Hne].
  split; [apply Hsilent; exact I | exact Hne].
Defined.

(** ** init *)

(** C8: on a session whose flag is already set, init returns at once:
    no underlying call is made and the session is unchanged. *)
Theorem init_idempotent (mw : Middleware) w :
  isInitialized (this w) = true → init mw w = (Ok tt, w).
Proof.
  intros Hon. unfold init, bind, gets, ret. simpl. by rewrite Hon.
Qed.

Lemma init_idempotent_witness : init healthy started = (Ok tt, started).
Proof. exact (init_idempotent healthy started eq_refl). Defined.

Lemma init_context_raises (mw : Middleware) w cause :
  isInitialized (this w) = false →
  mw (trace w) RclInit = Throw cause →
  init mw w = (Err (InitializationFailed cause), record RclInit w).
Proof.
  intros Hoff Hc. destruct w as [s t]. simpl in *.
  unfold init, try_catch, bind, gets, call, throw. simpl.
  rewrite Hoff. simpl. by rewrite Hc.
Qed.

Lemma init_node_raises (mw : Middleware) w cause :
  isInitialized (this w) = false →
  mw (trace w) RclInit = Ret tt →
  mw (trace w ++ [RclInit])
     (RclNode (nodeName (this w)) (namespace (this w))) = Throw cause →
  init mw w
  = (Err (InitializationFailed cause),
     record (RclNode (nodeName (this w)) (namespace (this w)))
       (record RclInit w)).
Proof.
  intros Hoff Hc Hn. destruct w as [s t]. simpl in *.
  unfold init, try_catch, bind, gets, call, throw. simpl.
  rewrite Hoff. simpl. rewrite Hc. simpl. by rewrite Hn.
Qed.

(** While [spin] does not raise, an uninitialized session holds no node
    handle in any reachable state. *)
Lemma reachable_uninitialized_no_node (mw : Middleware) w :
  spin_returns mw →
  reachable mw w → isInitialized (this w) = false → node (this w) = None.
Proof.
  intros Hspin Hr. induction Hr as [nn ns st | w op _ IH]; [done |].
  revert IH. destruct w as [[nn ns st nd pubs subs cls acs ini] t]. simpl.
  intros IH.
  destruct ini.
  - clear IH. destruct op; exec; first [done | discriminate].
  - rewrite (IH eq_refl). clear IH.
    destruct op; exec; try first [done | discriminate].
    all: match goal with
         | H : _ _ (NodeSpin _ _) = Throw _ |- _ =>
             rewrite Hspin in H; discriminate H
         end.
Qed.

(** C4, as stated, fails: a node handle left in the session by an
    earlier init whose [spin] raised is still there after a later init
    that fails because bringing up the context raises.  The state is
    reachable, the failing step is context establishment, and the
    session holds the node handle afterwards. *)
Lemma init_failure_keeps_node_counterexample :
  reachable context_once stranded ∧
  isInitialized (this stranded) = false ∧
  context_once (trace stranded) RclInit
  = Throw "context already initialized" ∧
  init context_once stranded
  = (Err (InitializationFailed "context already initialized"),
     record RclInit stranded) ∧
  isInitialized (this (init context_once stranded).2) = false ∧
  node (this (init context_once stranded).2) = Some 1%nat.
Proof.
  split; [apply (reach_step context_once _ OpInit), reach_new |].
  repeat split; reflexivity.
Qed.

(** C4 (amended): when bringing up the context raises, or the context
    comes up and creating the node raises, init fails with the
    initialization-failed error whose message carries the cause, and the
    session is exactly what it was before the call: still uninitialized,
    with no node handle stored by the call.  It holds no node handle
    afterwards whenever it held none before, and that is the case in
    every reachable state as long as starting the dispatch loop does not
    raise. *)
Theorem init_failure (mw : Middleware) w cause :
  isInitialized (this w) = false →
  let create := RclNode (nodeName (this w)) (namespace (this w)) in
  (mw (trace w) RclInit = Throw cause →
   init mw w = (Err (InitializationFailed cause), record RclInit w)) ∧
  (mw (trace w) RclInit = Ret tt →
   mw (trace w ++ [RclInit]) create = Throw cause →
   init mw w
   = (Err (InitializationFailed cause), record create (record RclInit w))) ∧
  ((mw (trace w) RclInit = Throw cause ∨
    mw (trace w) RclInit = Ret tt ∧
    mw (trace w ++ [RclInit]) create = Throw cause) →
   this (init mw w).2 = this w ∧
   isInitialized (this (init mw w).2) = false ∧
   (node (this w) = None → node (this (init mw w).2) = None) ∧
   (spin_returns mw → reachable mw w →
    node (this (init mw w).2) = None)).
Proof.
  intros Hoff create.
  split; [by apply init_context_raises |].
  split; [by apply init_node_raises |].
  intros Hfail.
  assert (Hsame : this (init mw w).2 = this w).
  { destruct Hfail as [Hc | [Hc Hn]].
    - by rewrite (init_context_raises mw w cause Hoff Hc).
    - by rewrite (init_node_raises mw w cause Hoff Hc Hn). }
  rewrite Hsame. split; [done |]. split; [done |]. split; [done |].
  intros Hspin Hr. by apply (reachable_uninitialized_no_node mw).
Qed.

Lemma scripted_spin_returns (sc : Script) : spin_returns (scripted sc).
Proof. intros history n timeout. reflexivity. Qed.

Lemma init_failure_witness :
  (init no_context fresh
   = (Err (InitializationFailed "rcl context"), record RclInit fresh) ∧
   node (this (init no_context fresh).2) = None) ∧
  (init no_node fresh
   = (Err (InitializationFailed "invalid node name"),
      record (RclNode "ros2_interface_node" "/") (record RclInit fresh)) ∧
   this (init no_node fresh).2 = this fresh ∧
   node (this (init no_node fresh).2) = None).
Proof.
  split.
  - destruct (init_failure no_context fresh "rcl context" eq_refl)
      as (Hctx & _ & Hafter).
    split; [exact (Hctx eq_refl) |].
    exact (proj2 (proj2 (proj2 (Hafter (or_introl eq_refl))))
             (scripted_spin_returns _) (reach_new no_context None None None)).
  - destruct (init_failure no_node fresh "invalid node name" eq_refl)
      as (_ & Hnode & Hafter).
    split; [exact (Hnode eq_refl eq_refl) |].
    destruct (Hafter (or_intror (conj eq_refl eq_refl)))
      as (Hsame & _ & _ & Hnone).
    split; [exact Hsame |].
    exact (Hnone (scripted_spin_returns _) (reach_new no_node None None None)).
Defined.

(** Outside C4: when the node is created and starting its dispatch loop
    raises, init fails in the same way but the session keeps the handle of
    the node just created. *)
Remark init_spin_failure (mw : Middleware) w n cause :
  isInitialized (this w) = false →
  mw (trace w) RclInit = Ret tt →
  mw (trace w ++ [RclInit])
     (RclNode (nodeName (this w)) (namespace (this w))) = Ret n →
  mw (trace w
        ++ [RclInit; RclNode (nodeName (this w)) (namespace (this w))])
     (NodeSpin n (spinTimeout (this w))) = Throw cause →
  (init mw w).1 = Err (InitializationFailed cause) ∧
  this (init mw w).2 = set_node (Some n) (this w).
Proof.
  intros Hoff Hc Hn Hs. destruct w as [s t]. simpl in *.
  unfold init, try_catch, bind, gets, call, throw, modify, the_node, ret.
  simpl. rewrite Hoff. simpl. rewrite Hc. simpl. rewrite Hn. simpl.
  rewrite <- app_assoc. simpl. by rewrite Hs.
Qed.

(** ** shutdown *)

Lemma shutdown_off (mw : Middleware) w :
  isInitialized (this w) = false → shutdown mw w = (Ok tt, w).
Proof.
  intros Hoff. unfold shutdown, bind, gets, ret. simpl. by rewrite Hoff.
Qed.

Lemma shutdown_empties (mw : Middleware) w :
  isInitialized (this w) = true → caches_empty (this (shutdown mw w).2).
Proof.
  intros Hon. destruct w as [s t]. simpl in Hon.
  unfold_methods. simpl.
  rewrite Hon. simpl.
  destruct (node s) as [n |]; simpl; [| by repeat split].
  destruct (mw t (NodeDestroy n)); simpl; [| by repeat split].
  destruct (mw (t ++ [NodeDestroy n]) RclShutdown); simpl; by repeat split.
Qed.

Lemma shutdown_on (mw : Middleware) w n :
  isInitialized (this w) = true → node (this w) = Some n →
  mw (trace w) (NodeDestroy n) = Ret tt →
  mw (trace w ++ [NodeDestroy n]) RclShutdown = Ret tt →
  shutdown mw w
  = (Ok tt,
     mkWorld (constructor (Some (nodeName (this w)))
                (Some (namespace (this w))) (Some (spinTimeout (this w))))
       (trace w ++ [NodeDestroy n; RclShutdown])).
Proof.
  intros Hon Hn Hd Hs. destruct w as [s t]. simpl in *.
  unfold_methods. simpl.
  rewrite Hon. simpl. rewrite Hn. simpl. rewrite Hd. simpl. rewrite Hs.
  simpl. by rewrite <- app_assoc.
Qed.

(** C2: in every reachable state an uninitialized session has all four
    caches empty (a cache is non-empty only while the flag is set);
    shutdown on an uninitialized session does nothing; on an initialized
    one it leaves all four caches empty whatever rclnodejs answers, calls
    destroy on the node and then the context shutdown, and, these having
    returned, leaves the session as the constructor builds it (no node,
    flag unset), so that every guarded method fails afterwards. *)
Theorem shutdown_resets (mw : Middleware) :
  (∀ w, reachable mw w → isInitialized (this w) = false →
        caches_empty (this w)) ∧
  (∀ w, isInitialized (this w) = false → shutdown mw w = (Ok tt, w)) ∧
  (∀ w n,
     isInitialized (this w) = true → node (this w) = Some n →
     caches_empty (this (shutdown mw w).2) ∧
     (mw (trace w) (NodeDestroy n) = Ret tt →
      mw (trace w ++ [NodeDestroy n]) RclShutdown = Ret tt →
      shutdown mw w
      = (Ok tt,
         mkWorld (constructor (Some (nodeName (this w)))
                    (Some (namespace (this w)))
                    (Some (spinTimeout (this w))))
           (trace w ++ [NodeDestroy n; RclShutdown])) ∧
      ∀ op, guarded op = true →
            run_op mw op (shutdown mw w).2
            = (Err NotInitialized, (shutdown mw w).2))).
Proof.
  split; [apply reachable_uninitialized_empty |].
  split; [apply shutdown_off |].
  intros w n Hon Hn. split; [by apply shutdown_empties |].
  intros Hd Hs. rewrite (shutdown_on mw w n Hon Hn Hd Hs).
  split; [done |]. intros op Hg. by apply guarded_fails.
Qed.

Lemma shutdown_resets_witness :
  caches_empty (this (shutdown healthy subscribed).2) ∧
  shutdown healthy subscribed
  = (Ok tt,
     mkWorld (constructor None None None)
       (trace subscribed ++ [NodeDestroy 1%nat; RclShutdown])) ∧
  shutdown healthy fresh = (Ok tt, fresh).
Proof.
  destruct (shutdown_resets healthy) as (_ & Hoff & Hon).
  destruct (Hon subscribed 1%nat eq_refl eq_refl) as [He Hdown].
  split; [exact He |].
  split; [exact (proj1 (Hdown eq_refl eq_refl)) | exact (Hoff fresh eq_refl)].
Defined.

(** ** Publishers *)

Lemma createPublisher_cached (mw : Middleware) w topicName msgType p :
  ready (this w) = true →
  publishers (this w) !! topicName = Some p →
  createPublisher mw topicName msgType w = (Ok (Some p), w).
Proof.
  intros Hr Hp. unfold createPublisher.
  rewrite (bind_ok _ _ w tt w (checkInit_passes w Hr)).
  unfold bind, gets, ret. simpl. rewrite Hp. simpl. by rewrite Hp.
Qed.

Lemma createPublisher_new (mw : Middleware) w n topicName msgType p :
  isInitialized (this w) = true → node (this w) = Some n →
  publishers (this w) !! topicName = None →
  mw (trace w) (NodeCreatePublisher n msgType topicName) = Ret p →
  createPublisher mw topicName msgType w
  = (Ok (Some p),
     mkWorld (upd_publishers (<[topicName := p]>) (this w))
       (trace w ++ [NodeCreatePublisher n msgType topicName])).
Proof.
  intros Hon Hn Hp Hc. unfold createPublisher.
  rewrite (bind_ok _ _ w tt w).
  2: { apply checkInit_passes, ready_true. eauto. }
  unfold_methods. simpl.
  rewrite Hp, Hn. simpl. rewrite Hc. simpl. by rewrite lookup_insert_eq.
Qed.

Lemma createPublisher_each_cached (mw : Middleware) w topicName msgTypes p :
  ready (this w) = true →
  publishers (this w) !! topicName = Some p →
  createPublisher_each mw topicName msgTypes w
  = (Ok (replicate (length msgTypes) (Some p)), w).
Proof.
  intros Hr Hp. induction msgTypes as [| ty tys IH]; [done |].
  simpl. rewrite (bind_ok _ _ w (Some p) w).
  2: { by apply createPublisher_cached. }
  by rewrite (bind_ok _ _ w _ w IH).
Qed.

Lemma count_app p (t1 t2 : list Call) :
  count p (t1 ++ t2) = (count p t1 + count p t2)%nat.
Proof. unfold count. by rewrite List.filter_app, length_app. Qed.

(** A cached publisher stays cached, and no second one is created for
    its topic, through any method other than shutdown. *)
Lemma publisher_stable (mw : Middleware) op w topicName p :
  publishers (this w) !! topicName = Some p →
  op ≠ OpShutdown →
  publishers (this (run_op mw op w).2) !! topicName = Some p ∧
  count (is_create_publisher topicName) (trace (run_op mw op w).2)
  = count (is_create_publisher topicName) (trace w).
Proof.
  intros Hp Hop. destruct w as [[nn ns st nd pubs subs cls acs ini] t].
  simpl in Hp.
  destruct op; try congruence; exec;
    try match goal with
        | H : pubs !! ?t' = None |- _ =>
            assert (t' ≠ topicName) by (intros ->; congruence)
        end;
    (split; [ first [assumption | by rewrite lookup_insert_ne]
            | rewrite ?count_app; unfold count; simpl;
              rewrite ?bool_decide_eq_false_2 by assumption; simpl; lia ]).
Qed.

Lemma publisher_stable_run (mw : Middleware) ops w topicName p :
  publishers (this w) !! topicName = Some p →
  Forall (λ op, op ≠ OpShutdown) ops →
  publishers (this (run_ops mw ops w)) !! topicName = Some p ∧
  count (is_create_publisher topicName) (trace (run_ops mw ops w))
  = count (is_create_publisher topicName) (trace w).
Proof.
  intros Hp Hops. revert w Hp.
  induction Hops as [| op ops Hop _ IH]; intros w Hp; [done |].
  simpl. destruct (publisher_stable mw op w topicName p Hp Hop) as [Hp' Hc].
  destruct (IH _ Hp') as [Hp'' Hc']. split; [done | congruence].
Qed.

(** C3: on an initialized session that has no publisher for the topic
    yet, any number of createPublisher calls on that topic, with whatever
    message types, makes exactly one underlying createPublisher call (the
    first call's, with the first call's type), and every call returns the
    handle that call produced.  The same holds with other method calls in
    between, shutdown apart: the handle stays cached, a further
    createPublisher on the topic returns it from an initialized session
    whatever type it names, and the history still holds one creation. *)
Theorem createPublisher_once (mw : Middleware) w n topicName ty tys p :
  isInitialized (this w) = true → node (this w) = Some n →
  publishers (this w) !! topicName = None →
  mw (trace w) (NodeCreatePublisher n ty topicName) = Ret p →
  let w' := mkWorld (upd_publishers (<[topicName := p]>) (this w))
              (trace w ++ [NodeCreatePublisher n ty topicName]) in
  (createPublisher_each mw topicName (ty :: tys) w
   = (Ok (replicate (S (length tys)) (Some p)), w') ∧
   count (is_create_publisher topicName) (trace w')
   = S (count (is_create_publisher topicName) (trace w))) ∧
  (∀ ops ty',
     Forall (λ op, op ≠ OpShutdown) ops →
     let w'' := run_ops mw ops w' in
     count (is_create_publisher topicName) (trace w'')
     = S (count (is_create_publisher topicName) (trace w)) ∧
     (ready (this w'') = true →
      createPublisher mw topicName ty' w'' = (Ok (Some p), w''))).
Proof.
  intros Hon Hn Hp Hc w'.
  assert (Hone : count (is_create_publisher topicName) (trace w')
                 = S (count (is_create_publisher topicName) (trace w))).
  { subst w'. simpl. rewrite count_app. unfold count at 2. simpl.
    rewrite bool_decide_eq_true_2 by done. simpl. lia. }
  assert (Hin : publishers (this w') !! topicName = Some p).
  { simpl. apply lookup_insert_eq. }
  split; [split; [| exact Hone] |].
  - simpl. rewrite (bind_ok _ _ w (Some p) w').
    2: { by apply createPublisher_new. }
    rewrite (bind_ok _ _ w' (replicate (length tys) (Some p)) w'); [done |].
    apply createPublisher_each_cached; [| exact Hin].
    apply ready_true. simpl. eauto.
  - intros ops ty' Hops w''.
    destruct (publisher_stable_run mw ops w' topicName p Hin Hops)
      as [Hin' Hc'].
    split; [subst w''; congruence |].
    intros Hr. by apply createPublisher_cached.
Qed.

Lemma createPublisher_once_witness :
  createPublisher_each healthy "/cmd_vel"
    ["geometry_msgs/msg/Twist"; "std_msgs/msg/String";
     "geometry_msgs/msg/Twist"] started
  = (Ok [Some 4%nat; Some 4%nat; Some 4%nat],
     mkWorld (upd_publishers (<["/cmd_vel" := 4%nat]>) (this started))
       (trace started
          ++ [NodeCreatePublisher 1 "geometry_msgs/msg/Twist" "/cmd_vel"])).
Proof.
  exact (proj1 (proj1 (createPublisher_once healthy started 1%nat "/cmd_vel"
                         "geometry_msgs/msg/Twist"
                         ["std_msgs/msg/String"; "geometry_msgs/msg/Twist"]
                         4%nat eq_refl eq_refl eq_refl eq_refl))).
Defined.

(** ** Subscriptions *)

Lemma unsubscribe_tracked (mw : Middleware) w topicName subscription subs n :
  subscriptions (this w) !! topicName = Some subs →
  subscription ∈ subs →
  node (this w) = Some n →
  mw (trace w) (NodeDestroySubscription n subscription) = Ret tt →
  unsubscribe mw topicName subscription w
  = (Ok tt,
     mkWorld
       (upd_subscriptions
          (λ m, if bool_decide (size (subs ∖ {[subscription]}) = 0%nat)
                then delete topicName m
                else <[topicName := subs ∖ {[subscription]}]> m)
          (this w))
       (trace w ++ [NodeDestroySubscription n subscription])).
Proof.
  intros Hs Hin Hn Hd. destruct w as [s t]. simpl in *.
  unfold_methods. simpl. rewrite Hs.
  rewrite (bool_decide_eq_true_2 _ Hin). simpl. rewrite Hn. simpl.
  rewrite Hd. simpl.
  destruct (bool_decide (size (subs ∖ {[subscription]}) = 0%nat)); simpl;
    [| done].
  unfold upd_subscriptions. simpl. by rewrite delete_insert_eq.
Qed.

(** C7: unsubscribe changes nothing and raises nothing when the topic has
    no tracked set or the handle is not in it; for a tracked handle it
    calls destroySubscription on the node and, that call having returned,
    takes the handle out of the topic's set, dropping the topic's entry
    when the set is left empty; a second unsubscribe with the same handle
    then changes nothing.  In a reachable state a tracked handle always
    comes with a node to call. *)
Theorem unsubscribe_removes (mw : Middleware) w topicName subscription :
  (match subscriptions (this w) !! topicName with
   | None => True
   | Some subs => subscription ∉ subs
   end →
   unsubscribe mw topicName subscription w = (Ok tt, w)) ∧
  (∀ subs n,
     subscriptions (this w) !! topicName = Some subs →
     subscription ∈ subs →
     node (this w) = Some n →
     mw (trace w) (NodeDestroySubscription n subscription) = Ret tt →
     let rest := subs ∖ {[subscription]} in
     let w' :=
       mkWorld
         (upd_subscriptions
            (λ m, if bool_decide (size rest = 0%nat)
                  then delete topicName m
                  else <[topicName := rest]> m)
            (this w))
         (trace w ++ [NodeDestroySubscription n subscription]) in
     unsubscribe mw topicName subscription w = (Ok tt, w') ∧
     subscriptions (this w') !! topicName
     = (if bool_decide (size rest = 0%nat) then None else Some rest) ∧
     unsubscribe mw topicName subscription w' = (Ok tt, w')) ∧
  (reachable mw w →
   ∀ subs,
     subscriptions (this w) !! topicName = Some subs →
     subscription ∈ subs →
     ∃ n, node (this w) = Some n).
Proof.
  split; [apply unsubscribe_untracked |]. split.
  - intros subs n Hs Hin Hn Hd rest w'.
    assert (Hlk : subscriptions (this w') !! topicName
                  = (if bool_decide (size rest = 0%nat) then None
                     else Some rest)).
    { subst w'. simpl.
      destruct (bool_decide (size rest = 0%nat));
        [apply lookup_delete_eq | apply lookup_insert_eq]. }
    split; [by apply unsubscribe_tracked |]. split; [exact Hlk |].
    apply unsubscribe_untracked. rewrite Hlk.
    destruct (bool_decide (size rest = 0%nat)); [done |].
    subst rest. intros Hx. apply elem_of_difference in Hx as [_ Hx].
    apply Hx, elem_of_singleton. reflexivity.
  - intros Hr subs Hs Hin.
    destruct (isInitialized (this w)) eqn:Hi.
    + by apply (reachable_initialized_node mw).
    + destruct (reachable_uninitialized_empty mw w Hr Hi) as (_ & He & _).
      rewrite He, lookup_empty in Hs. discriminate.
Qed.

Lemma unsubscribe_removes_witness :
  let gone :=
    mkWorld (upd_subscriptions (delete "/chatter") (this subscribed))
      (trace subscribed ++ [NodeDestroySubscription 1%nat 4%nat]) in
  unsubscribe healthy "/chatter" 4%nat subscribed = (Ok tt, gone) ∧
  subscriptions (this gone) !! "/chatter" = None ∧
  unsubscribe healthy "/chatter" 4%nat gone = (Ok tt, gone).
Proof.
  assert (Hin : 4%nat ∈ ({[4%nat]} ∪ ∅ : gset nat)).
  { apply elem_of_union_l, elem_of_singleton. reflexivity. }
  exact (proj1 (proj2 (unsubscribe_removes healthy subscribed "/chatter"
                         4%nat))
           ({[4%nat]} ∪ ∅) 1%nat eq_refl Hin eq_refl eq_refl).
Defined.

(** ** Services *)

(** Resolving the client makes no call other than, at most, one
    createClient. *)
Lemma service_client_history (mw : Middleware) w serviceName serviceType c w1 :
  service_client mw serviceName serviceType w = (Ok c, w1) →
  ∀ p, (∀ n ty s, p (NodeCreateClient n ty s) = false) →
       count p (trace w1) = count p (trace w).
Proof.
  intros Hres p Hp. destruct w as [s t]. revert Hres.
  unfold_methods. simpl.
  destruct (clients s !! serviceName) as [c0 |]; simpl.
  - intros [= <- <-]. done.
  - destruct (node s) as [n |]; simpl; [| discriminate].
    destruct (mw t (NodeCreateClient n serviceType serviceName)); simpl;
      [| discriminate].
    intros [= <- <-]. simpl. rewrite count_app. unfold count at 2. simpl.
    rewrite Hp. simpl. lia.
Qed.

Lemma callService_steps (mw : Middleware) w serviceName serviceType request
    timeoutMs c w1 :
  ready (this w) = true →
  service_client mw serviceName serviceType w = (Ok c, w1) →
  callService mw serviceName serviceType request timeoutMs w
  = match mw (trace w1) (ClientWaitForService c (default 2000 timeoutMs)) with
    | Ret true =>
        (of_outcome
           (mw (trace w1 ++ [ClientWaitForService c (default 2000 timeoutMs)])
              (ClientSendRequest c request)),
         record (ClientSendRequest c request)
           (record (ClientWaitForService c (default 2000 timeoutMs)) w1))
    | Ret false =>
        (Err (ServiceUnavailable serviceName),
         record (ClientWaitForService c (default 2000 timeoutMs)) w1)
    | Throw msg =>
        (Err (MwError msg),
         record (ClientWaitForService c (default 2000 timeoutMs)) w1)
    end.
Proof.
  intros Hr Hres. unfold callService.
  rewrite (bind_ok _ _ w tt w (checkInit_passes w Hr)).
  rewrite (bind_ok _ _ w c w1 Hres).
  unfold bind. rewrite call_eq.
  destruct (mw (trace w1) (ClientWaitForService c (default 2000 timeoutMs)))
    as [[|] | msg]; simpl; [| done | done].
  by rewrite call_eq.
Qed.

(** C5: on an initialized session, with the service's client resolved
    (cached, or created and cached), callService waits for the service
    with the given timeout (2000 by default).  If the wait answers
    unavailable the call fails with the service-not-available error and
    no request is sent; if it answers available the request is sent
    exactly once and the call ends as that request does. *)
Theorem callService_availability (mw : Middleware) w serviceName serviceType
    request timeoutMs c w1 :
  ready (this w) = true →
  service_client mw serviceName serviceType w = (Ok c, w1) →
  let wait := ClientWaitForService c (default 2000 timeoutMs) in
  let send := ClientSendRequest c request in
  (mw (trace w1) wait = Ret false →
   callService mw serviceName serviceType request timeoutMs w
   = (Err (ServiceUnavailable serviceName), record wait w1) ∧
   count is_send_request (trace (record wait w1))
   = count is_send_request (trace w)) ∧
  (mw (trace w1) wait = Ret true →
   callService mw serviceName serviceType request timeoutMs w
   = (of_outcome (mw (trace w1 ++ [wait]) send),
      record send (record wait w1)) ∧
   count is_send_request (trace (record send (record wait w1)))
   = S (count is_send_request (trace w))).
Proof.
  intros Hr Hres wait send.
  pose proof (callService_steps mw w serviceName serviceType request
                timeoutMs c w1 Hr Hres) as Hcall.
  pose proof (service_client_history mw w serviceName serviceType c w1 Hres
                is_send_request (λ _ _ _, eq_refl)) as Hcount.
  fold wait in Hcall. fold send in Hcall. split; intros Hw.
  - rewrite Hw in Hcall. split; [exact Hcall |].
    simpl. rewrite count_app, Hcount. unfold count at 2. simpl. lia.
  - rewrite Hw in Hcall. split; [exact Hcall |].
    simpl. rewrite !count_app, Hcount. unfold count at 2 3. simpl. lia.
Qed.

Lemma callService_availability_witness :
  let w1 :=
    mkWorld (upd_clients (<["/add_two_ints" := 4%nat]>) (this started))
      (trace started
         ++ [NodeCreateClient 1 "example_interfaces/srv/AddTwoInts"
               "/add_two_ints"]) in
  (callService service_down "/add_two_ints"
     "example_interfaces/srv/AddTwoInts" (JNum 3) None started
   = (Err (ServiceUnavailable "/add_two_ints"),
      record (ClientWaitForService 4 2000) w1) ∧
   count is_send_request (trace (record (ClientWaitForService 4 2000) w1))
   = count is_send_request (trace started)) ∧
  (callService healthy "/add_two_ints"
     "example_interfaces/srv/AddTwoInts" (JNum 3) (Some 500) started
   = (Ok (JNum 3),
      record (ClientSendRequest 4 (JNum 3))
        (record (ClientWaitForService 4 500) w1)) ∧
   count is_send_request
     (trace (record (ClientSendRequest 4 (JNum 3))
               (record (ClientWaitForService 4 500) w1)))
   = S (count is_send_request (trace started))).
Proof.
  split.
  - exact (proj1 (callService_availability service_down started
                    "/add_two_ints" "example_interfaces/srv/AddTwoInts"
                    (JNum 3) None 4%nat _ eq_refl eq_refl) eq_refl).
  - exact (proj2 (callService_availability healthy started
                    "/add_two_ints" "example_interfaces/srv/AddTwoInts"
                    (JNum 3) (Some 500) 4%nat _ eq_refl eq_refl) eq_refl).
Defined.

(** ** Actions *)

Lemma action_client_history (mw : Middleware) w actionName actionType c w1 :
  action_client mw actionName actionType w = (Ok c, w1) →
  ∀ p, (∀ n ty a, p (RclActionClient n ty a) = false) →
       count p (trace w1) = count p (trace w).
Proof.
  intros Hres p Hp. destruct w as [s t]. revert Hres.
  unfold_methods. simpl.
  destruct (actionClients s !! actionName) as [c0 |]; simpl.
  - intros [= <- <-]. done.
  - destruct (mw t (RclActionClient (node s) actionType actionName)); simpl;
      [| discriminate].
    intros [= <- <-]. simpl. rewrite count_app. unfold count at 2. simpl.
    rewrite Hp. simpl. lia.
Qed.

Lemma sendActionGoal_steps (mw : Middleware) w actionName actionType goal
    onFeedback timeoutMs c w1 :
  ready (this w) = true →
  action_client mw actionName actionType w = (Ok c, w1) →
  let wait := ActionWaitForServer c (default 2000 timeoutMs) in
  let submit := ActionSendGoal c goal onFeedback in
  mw (trace w1) wait = Ret true →
  sendActionGoal mw actionName actionType goal onFeedback timeoutMs w
  = match mw (trace w1 ++ [wait]) submit with
    | Throw msg => (Err (MwError msg), record submit (record wait w1))
    | Ret gh =>
        let w2 := record submit (record wait w1) in
        match mw (trace w2) (GoalIsAccepted gh) with
        | Throw msg => (Err (MwError msg), record (GoalIsAccepted gh) w2)
        | Ret false => (Err GoalRejected, record (GoalIsAccepted gh) w2)
        | Ret true =>
            (of_outcome
               (mw (trace w2 ++ [GoalIsAccepted gh]) (GoalGetResult gh)),
             record (GoalGetResult gh) (record (GoalIsAccepted gh) w2))
        end
    end.
Proof.
  intros Hr Hres wait submit Hw. unfold sendActionGoal.
  rewrite (bind_ok _ _ w tt w (checkInit_passes w Hr)).
  rewrite (bind_ok _ _ w c w1 Hres).
  unfold bind. rewrite call_eq. fold wait. rewrite Hw. simpl.
  rewrite call_eq. simpl. fold submit.
  destruct (mw (trace w1 ++ [wait]) submit) as [gh | msg]; simpl; [| done].
  rewrite call_eq. simpl.
  destruct (mw ((trace w1 ++ [wait]) ++ [submit]) (GoalIsAccepted gh))
    as [[|] | msg]; simpl; [| done | done].
  by rewrite call_eq.
Qed.

(** C6: on an initialized session whose action client is resolved and
    whose wait for the action server answers available, sendActionGoal
    submits the goal with the feedback callback.  If the server's handle
    reports the goal not accepted, the call fails with the goal-rejected
    error and no result is requested; if accepted, the result is requested
    and the call ends as that request does.  In every case the call ends
    in exactly one of: a result value, the goal-rejected error, or an
    error of rclnodejs passed on. *)
Theorem sendActionGoal_outcome (mw : Middleware) w actionName actionType goal
    onFeedback timeoutMs c w1 :
  ready (this w) = true →
  action_client mw actionName actionType w = (Ok c, w1) →
  let wait := ActionWaitForServer c (default 2000 timeoutMs) in
  let submit := ActionSendGoal c goal onFeedback in
  let w2 := record submit (record wait w1) in
  let run :=
    sendActionGoal mw actionName actionType goal onFeedback timeoutMs w in
  mw (trace w1) wait = Ret true →
  (∀ gh,
     mw (trace w1 ++ [wait]) submit = Ret gh →
     (mw (trace w2) (GoalIsAccepted gh) = Ret false →
      run = (Err GoalRejected, record (GoalIsAccepted gh) w2) ∧
      count is_get_result (trace run.2) = count is_get_result (trace w)) ∧
     (mw (trace w2) (GoalIsAccepted gh) = Ret true →
      run = (of_outcome
               (mw (trace w2 ++ [GoalIsAccepted gh]) (GoalGetResult gh)),
             record (GoalGetResult gh) (record (GoalIsAccepted gh) w2)))) ∧
  ((∃ v, run.1 = Ok v) ∨ run.1 = Err GoalRejected ∨
   (∃ msg, run.1 = Err (MwError msg))).
Proof.
  intros Hr Hres wait submit w2 run Hw.
  pose proof (sendActionGoal_steps mw w actionName actionType goal onFeedback
                timeoutMs c w1 Hr Hres Hw) as Hrun.
  fold wait submit in Hrun. cbv zeta in Hrun. fold w2 in Hrun.
  fold run in Hrun.
  pose proof (action_client_history mw w actionName actionType c w1 Hres
                is_get_result (λ _ _ _, eq_refl)) as Hcount.
  split.
  - intros gh Hg. rewrite Hg in Hrun. split; intros Ha; rewrite Ha in Hrun.
    + split; [exact Hrun |]. rewrite Hrun. simpl.
      rewrite !count_app, Hcount. unfold count at 2 3 4. simpl. lia.
    + exact Hrun.
  - rewrite Hrun.
    destruct (mw (trace w1 ++ [wait]) submit) as [gh | msg];
      [| right; right; eauto].
    destruct (mw (trace w2) (GoalIsAccepted gh)) as [[|] | msg];
      [| right; left; done | right; right; eauto].
    destruct (mw (trace w2 ++ [GoalIsAccepted gh]) (GoalGetResult gh));
      [left | right; right]; eauto.
Qed.

Lemma sendActionGoal_outcome_witness :
  (sendActionGoal rejecting "/fibonacci" "action_tutorials/action/Fibonacci"
     (JNum 5) (Some 9%nat) None started).1 = Err GoalRejected ∧
  count is_get_result
    (trace (sendActionGoal rejecting "/fibonacci"
              "action_tutorials/action/Fibonacci" (JNum 5) (Some 9%nat) None
              started).2) = 0%nat ∧
  (sendActionGoal healthy "/fibonacci" "action_tutorials/action/Fibonacci"
     (JNum 5) None (Some 250) started).1 = Ok (JStr "done").
Proof.
  pose proof (sendActionGoal_outcome rejecting started "/fibonacci"
                "action_tutorials/action/Fibonacci" (JNum 5) (Some 9%nat)
                None 4%nat _ eq_refl eq_refl eq_refl) as [Hrej _].
  pose proof (sendActionGoal_outcome healthy started "/fibonacci"
                "action_tutorials/action/Fibonacci" (JNum 5) None
                (Some 250) 4%nat _ eq_refl eq_refl eq_refl) as [Hacc _].
  destruct (proj1 (Hrej 6%nat eq_refl) eq_refl) as [Hr Hc].
  split; [exact (f_equal fst Hr) |].
  split; [exact Hc | exact (f_equal fst (proj2 (Hacc 6%nat eq_refl) eq_refl))].
Defined.

(** ** Parameters *)

Lemma declareParam_steps (mw : Middleware) w n name v :
  isInitialized (this w) = true → node (this w) = Some n →
  declareParam mw name v w
  = match mw (trace w) (NodeHasParameter n name) with
    | Ret true => (Ok tt, record (NodeHasParameter n name) w)
    | Ret false =>
        (of_outcome
           (mw (trace w ++ [NodeHasParameter n name])
              (NodeDeclareParameter n name v)),
         record (NodeDeclareParameter n name v)
           (record (NodeHasParameter n name) w))
    | Throw msg => (Err (MwError msg), record (NodeHasParameter n name) w)
    end.
Proof.
  intros Hon Hn. unfold declareParam.
  rewrite (bind_ok _ _ w tt w).
  2: { apply checkInit_passes, ready_true. eauto. }
  rewrite (bind_ok _ _ w n w (the_node_some w n Hn)).
  unfold bind. rewrite call_eq.
  destruct (mw (trace w) (NodeHasParameter n name)) as [[|] | msg]; simpl;
    [done | | done].
  rewrite (the_node_some _ n) by exact Hn. by rewrite call_eq.
Qed.

Lemma healthy_declare_is_seen : declare_is_seen healthy.
Proof.
  intros history n name v _. unfold healthy, scripted. f_equal.
  rewrite existsb_app. simpl. rewrite bool_decide_eq_true_2 by done.
  by rewrite orb_true_r.
Qed.

(** C9: on an initialized session declareParam asks the node whether the
    parameter is present; if so it declares nothing and leaves the
    session unchanged; if not it makes one declare call.  Hence, when
    the parameter is absent at first, the declare call returns, and the
    node then reports the parameter as present, two declareParam calls
    in a row on that name make exactly one declare call between them. *)
Theorem declareParam_idempotent (mw : Middleware) w n name v v' :
  isInitialized (this w) = true → node (this w) = Some n →
  let has := NodeHasParameter n name in
  let declare := NodeDeclareParameter n name v in
  (mw (trace w) has = Ret true →
   declareParam mw name v w = (Ok tt, record has w) ∧
   count (is_declare name) (trace (record has w))
   = count (is_declare name) (trace w)) ∧
  (mw (trace w) has = Ret false →
   declareParam mw name v w
   = (of_outcome (mw (trace w ++ [has]) declare),
      record declare (record has w))) ∧
  (declare_is_seen mw →
   mw (trace w) has = Ret false →
   mw (trace w ++ [has]) declare = Ret tt →
   let twice := (declareParam mw name v ;;; declareParam mw name v') w in
   twice = (Ok tt, record has (record declare (record has w))) ∧
   count (is_declare name) (trace twice.2)
   = S (count (is_declare name) (trace w))).
Proof.
  intros Hon Hn has declare.
  pose proof (declareParam_steps mw w n name v Hon Hn) as Hone.
  fold has declare in Hone.
  split; [| split].
  - intros Hp. rewrite Hp in Hone. split; [exact Hone |].
    simpl. rewrite count_app. unfold count at 2. simpl. lia.
  - intros Hp. by rewrite Hp in Hone.
  - intros Hseen Hp Hd twice.
    rewrite Hp, Hd in Hone. simpl in Hone.
    assert (Htwice :
      twice = (Ok tt, record has (record declare (record has w)))).
    { subst twice. rewrite (bind_ok _ _ _ _ _ Hone).
      rewrite (declareParam_steps mw _ n name v') by (simpl; done).
      fold has. simpl.
      pose proof (Hseen (trace w ++ [has]) n name v Hd) as Hs.
      change (mw ((trace w ++ [has]) ++ [declare]) has = Ret true) in Hs.
      by rewrite Hs. }
    split; [exact Htwice |]. rewrite Htwice. simpl.
    rewrite !count_app. unfold count at 2 3 4. simpl.
    rewrite bool_decide_eq_true_2 by done. simpl. lia.
Qed.

Lemma declareParam_idempotent_witness :
  (declareParam healthy "rate" (JNum 10) ;;;
   declareParam healthy "rate" (JNum 20)) started
  = (Ok tt,
     mkWorld (this started)
       (trace started
          ++ [NodeHasParameter 1 "rate";
              NodeDeclareParameter 1 "rate" (JNum 10);
              NodeHasParameter 1 "rate"])) ∧
  count (is_declare "rate")
    (trace ((declareParam healthy "rate" (JNum 10) ;;;
             declareParam healthy "rate" (JNum 20)) started).2)
  = S (count (is_declare "rate") (trace started)).
Proof.
  exact (proj2 (proj2 (declareParam_idempotent healthy started 1%nat "rate"
                         (JNum 10) (JNum 20) eq_refl eq_refl))
           healthy_declare_is_seen eq_refl eq_refl).
Defined.

(** * Further properties of the facade *)

(** ** Lifecycle *)

Lemma init_on (mw : Middleware) w n :
  isInitialized (this w) = false →
  mw (trace w) RclInit = Ret tt →
  mw (trace w ++ [RclInit])
     (RclNode (nodeName (this w)) (namespace (this w))) = Ret n →
  mw (trace w ++ [RclInit; RclNode (nodeName (this w)) (namespace (this w))])
     (NodeSpin n (spinTimeout (this w))) = Ret tt →
  init mw w
  = (Ok tt,
     mkWorld (set_isInitialized true (set_node (Some n) (this w)))
       (trace w
          ++ [RclInit; RclNode (nodeName (this w)) (namespace (this w));
              NodeSpin n (spinTimeout (this w));
              ConsoleInfo ("ROS 2 node " +:+ dq +:+ nodeName (this w)
                           +:+ dq +:+ " initialized.")])).
Proof.
  intros Hoff Hc Hn Hs. destruct w as [s t]. simpl in *.
  unfold_methods. simpl. rewrite Hoff. simpl. rewrite Hc. simpl.
  rewrite Hn. simpl. rewrite <- app_assoc. simpl. rewrite Hs. simpl.
  by rewrite <- !app_assoc.
Qed.

(** X1: on an uninitialized session, when the context comes up, the node
    is created and its dispatch loop starts, init stores the node, sets
    the flag, leaves the four caches and the configuration as they were,
    and has made exactly these three underlying calls, in this order,
    followed by the log line; the guard then passes. *)
Theorem init_brings_up (mw : Middleware) w n :
  isInitialized (this w) = false →
  let create := RclNode (nodeName (this w)) (namespace (this w)) in
  let spin := NodeSpin n (spinTimeout (this w)) in
  mw (trace w) RclInit = Ret tt →
  mw (trace w ++ [RclInit]) create = Ret n →
  mw (trace w ++ [RclInit; create]) spin = Ret tt →
  init mw w
  = (Ok tt,
     mkWorld (set_isInitialized true (set_node (Some n) (this w)))
       (trace w
          ++ [RclInit; create; spin;
              ConsoleInfo ("ROS 2 node " +:+ dq +:+ nodeName (this w)
                           +:+ dq +:+ " initialized.")])) ∧
  _checkInit (init mw w).2 = (Ok tt, (init mw w).2).
Proof.
  intros Hoff create spin Hc Hn Hs.
  rewrite (init_on mw w n Hoff Hc Hn Hs). split; [done |].
  apply checkInit_passes. reflexivity.
Qed.

Lemma init_brings_up_witness :
  init healthy fresh
  = (Ok tt,
     mkWorld
       (set_isInitialized true (set_node (Some 1%nat) (this fresh)))
       [RclInit; RclNode "ros2_interface_node" "/"; NodeSpin 1 100;
        ConsoleInfo ("ROS 2 node " +:+ dq +:+ "ros2_interface_node"
                     +:+ dq +:+ " initialized.")]) ∧
  _checkInit (init healthy fresh).2 = (Ok tt, (init healthy fresh).2).
Proof.
  exact (init_brings_up healthy fresh 1%nat eq_refl eq_refl eq_refl eq_refl).
Defined.

(** X2: when the node is created but starting its dispatch loop raises,
    init fails with the initialization-failed error and the session keeps
    the new node's handle with the flag unset.  From there every guarded
    method still fails as not initialized, and shutdown returns without
    destroying that node or shutting the context down. *)
Theorem init_spin_failure_strands_node (mw : Middleware) w n cause :
  isInitialized (this w) = false →
  let create := RclNode (nodeName (this w)) (namespace (this w)) in
  mw (trace w) RclInit = Ret tt →
  mw (trace w ++ [RclInit]) create = Ret n →
  mw (trace w ++ [RclInit; create]) (NodeSpin n (spinTimeout (this w)))
  = Throw cause →
  let w' := mkWorld (set_node (Some n) (this w))
              (trace w
                 ++ [RclInit; create; NodeSpin n (spinTimeout (this w))]) in
  init mw w = (Err (InitializationFailed cause), w') ∧
  (∀ op, guarded op = true → run_op mw op w' = (Err NotInitialized, w')) ∧
  shutdown mw w' = (Ok tt, w').
Proof.
  intros Hoff create Hc Hn Hs w'.
  assert (Hoff' : isInitialized (this w') = false) by exact Hoff.
  split; [| split].
  - subst w' create. destruct w as [s t]. simpl in *.
    unfold_methods. simpl. rewrite Hoff. simpl. rewrite Hc. simpl.
    rewrite Hn. simpl. rewrite <- app_assoc. simpl. rewrite Hs. simpl.
    by rewrite <- !app_assoc.
  - intros op Hg. apply guarded_fails; [| done]. apply ready_false. by left.
  - by apply shutdown_off.
Qed.

Lemma init_spin_failure_strands_node_witness :
  let w' :=
    mkWorld (set_node (Some 1%nat) (this fresh))
      [RclInit; RclNode "ros2_interface_node" "/"; NodeSpin 1 100] in
  init spin_fails fresh = (Err (InitializationFailed "already spinning"), w') ∧
  (∀ op, guarded op = true →
         run_op spin_fails op w' = (Err NotInitialized, w')) ∧
  shutdown spin_fails w' = (Ok tt, w').
Proof.
  exact (init_spin_failure_strands_node spin_fails fresh 1%nat
           "already spinning" eq_refl eq_refl eq_refl eq_refl).
Defined.

(** X3: in every reachable state the flag is set only while a node handle
    is held, so the guard decides on the flag alone: it passes exactly
    when the flag is set. *)
Theorem guard_decided_by_flag (mw : Middleware) w :
  reachable mw w →
  ready (this w) = isInitialized (this w) ∧
  (isInitialized (this w) = true → _checkInit w = (Ok tt, w)) ∧
  (isInitialized (this w) = false → _checkInit w = (Err NotInitialized, w)).
Proof.
  intros Hr.
  assert (Heq : ready (this w) = isInitialized (this w)).
  { destruct (isInitialized (this w)) eqn:Hi.
    - apply ready_true. split; [done |].
      by apply (reachable_initialized_node mw).
    - apply ready_false. by left. }
  split; [exact Heq |]. split; intros Hi.
  - apply checkInit_passes. by rewrite Heq.
  - apply checkInit_fails. by rewrite Heq.
Qed.

Lemma reachable_run (mw : Middleware) ops w :
  reachable mw w → reachable mw (run_ops mw ops w).
Proof.
  revert w. induction ops as [| op ops IH]; intros w Hr; [done |].
  simpl. apply IH. by apply reach_step.
Qed.

Lemma guard_decided_by_flag_witness :
  ready (this subscribed) = isInitialized (this subscribed) ∧
  (isInitialized (this subscribed) = true →
   _checkInit subscribed = (Ok tt, subscribed)) ∧
  (isInitialized (this subscribed) = false →
   _checkInit subscribed = (Err NotInitialized, subscribed)).
Proof.
  apply (guard_decided_by_flag healthy subscribed).
  apply (reachable_run healthy
           [OpInit; OpSubscribe "/chatter" "std_msgs/msg/String" 3%nat] fresh).
  apply reach_new.
Defined.

(** X4: no method ever changes the node name, the namespace or the spin
    interval; and apart from init and shutdown no method changes the flag
    or the node handle, whether it returns or fails. *)
Theorem lifecycle_frame (mw : Middleware) op w :
  (nodeName (this (run_op mw op w).2) = nodeName (this w) ∧
   namespace (this (run_op mw op w).2) = namespace (this w) ∧
   spinTimeout (this (run_op mw op w).2) = spinTimeout (this w)) ∧
  (op ≠ OpInit → op ≠ OpShutdown →
   isInitialized (this (run_op mw op w).2) = isInitialized (this w) ∧
   node (this (run_op mw op w).2) = node (this w)).
Proof.
  destruct w as [[nn ns st nd pubs subs cls acs ini] t].
  split.
  - destruct op; exec; done.
  - intros Hi Hs. destruct op; try congruence; exec; done.
Qed.

Lemma lifecycle_frame_witness :
  isInitialized
    (this (run_op service_down
             (OpCallService "/add_two_ints" "example_interfaces/srv/AddTwoInts"
                (JNum 3) None) started).2) = true ∧
  node
    (this (run_op service_down
             (OpCallService "/add_two_ints" "example_interfaces/srv/AddTwoInts"
                (JNum 3) None) started).2) = Some 1%nat.
Proof.
  exact (proj2 (lifecycle_frame service_down
                  (OpCallService "/add_two_ints"
                     "example_interfaces/srv/AddTwoInts" (JNum 3) None)
                  started)
           ltac:(discriminate) ltac:(discriminate)).
Defined.

(** X5: each cache is written only by its own methods: the publishers by
    createPublisher, publish and shutdown; the subscription sets by
    subscribe, unsubscribe and shutdown; the service clients by
    callService and shutdown; the action clients by sendActionGoal and
    shutdown.  Every other method leaves the cache exactly as it was,
    whether it returns or fails. *)
Theorem caches_frame (mw : Middleware) op w :
  (writes_publishers op = false →
   publishers (this (run_op mw op w).2) = publishers (this w)) ∧
  (writes_subscriptions op = false →
   subscriptions (this (run_op mw op w).2) = subscriptions (this w)) ∧
  (writes_clients op = false →
   clients (this (run_op mw op w).2) = clients (this w)) ∧
  (writes_actionClients op = false →
   actionClients (this (run_op mw op w).2) = actionClients (this w)).
Proof.
  destruct w as [[nn ns st nd pubs subs cls acs ini] t].
  repeat split; intros Hw; destruct op; try discriminate Hw; exec; done.
Qed.

Lemma caches_frame_witness :
  subscriptions
    (this (run_op healthy (OpPublish "/chatter" "std_msgs/msg/String"
                             (JStr "hi")) subscribed).2)
  = subscriptions (this subscribed) ∧
  publishers
    (this (run_op healthy (OpUnsubscribe "/chatter" 4%nat) published).2)
  = publishers (this published).
Proof.
  split.
  - exact (proj1 (proj2 (caches_frame healthy
                           (OpPublish "/chatter" "std_msgs/msg/String"
                              (JStr "hi")) subscribed)) eq_refl).
  - exact (proj1 (caches_frame healthy (OpUnsubscribe "/chatter" 4%nat)
                    published) eq_refl).
Defined.

(** ** Subscriptions, further *)

Lemma subscribe_on (mw : Middleware) w n topicName msgType callback sub :
  isInitialized (this w) = true → node (this w) = Some n →
  mw (trace w) (NodeCreateSubscription n msgType topicName callback)
  = Ret sub →
  subscribe mw topicName msgType callback w
  = (Ok sub,
     mkWorld
       (upd_subscriptions
          (<[topicName :=
               {[sub]} ∪ default ∅ (subscriptions (this w) !! topicName)]>)
          (this w))
       (trace w ++ [NodeCreateSubscription n msgType topicName callback])).
Proof.
  intros Hon Hn Hc. unfold subscribe.
  rewrite (bind_ok _ _ w tt w).
  2: { apply checkInit_passes, ready_true. eauto. }
  rewrite (bind_ok _ _ w n w (the_node_some w n Hn)).
  unfold bind at 1. rewrite call_eq, Hc. simpl.
  destruct w as [s t]. unfold bind, gets, modify, ret, record. simpl.
  destruct (subscriptions s !! topicName) as [old |] eqn:Hold; simpl.
  - by rewrite Hold.
  - rewrite lookup_insert_eq. simpl. unfold upd_subscriptions. simpl.
    by rewrite insert_insert_eq.
Qed.

(** X6: on an initialized session subscribe makes one underlying
    createSubscription call each time it is called, also for a topic and
    callback already subscribed, returns the handle that call produced
    and adds it to the topic's set, keeping the handles already there.
    Two subscribe calls on one topic so make two underlying
    subscriptions, both tracked. *)
Theorem subscribe_always_creates (mw : Middleware) w n topicName msgType
    cb1 cb2 sub1 sub2 :
  isInitialized (this w) = true → node (this w) = Some n →
  let old := default ∅ (subscriptions (this w) !! topicName) in
  let create1 := NodeCreateSubscription n msgType topicName cb1 in
  let create2 := NodeCreateSubscription n msgType topicName cb2 in
  mw (trace w) create1 = Ret sub1 →
  mw (trace w ++ [create1]) create2 = Ret sub2 →
  subscribe mw topicName msgType cb1 w
  = (Ok sub1,
     mkWorld (upd_subscriptions (<[topicName := {[sub1]} ∪ old]>) (this w))
       (trace w ++ [create1])) ∧
  (s1 <- subscribe mw topicName msgType cb1 ;;
   s2 <- subscribe mw topicName msgType cb2 ;; ret (s1, s2)) w
  = (Ok (sub1, sub2),
     mkWorld
       (upd_subscriptions (<[topicName := {[sub2]} ∪ ({[sub1]} ∪ old)]>)
          (this w))
       (trace w ++ [create1; create2])) ∧
  count (is_create_subscription topicName) (trace w ++ [create1; create2])
  = S (S (count (is_create_subscription topicName) (trace w))).
Proof.
  intros Hon Hn old create1 create2 H1 H2.
  pose proof (subscribe_on mw w n topicName msgType cb1 sub1 Hon Hn H1)
    as Hs1.
  split; [exact Hs1 |]. split.
  - rewrite (bind_ok _ _ _ _ _ Hs1).
    rewrite (bind_ok _ _ _ sub2
               (mkWorld
                  (upd_subscriptions
                     (<[topicName := {[sub2]} ∪ ({[sub1]} ∪ old)]>) (this w))
                  (trace w ++ [create1; create2]))); [done |].
    rewrite (subscribe_on mw _ n topicName msgType cb2 sub2) by done.
    simpl. rewrite lookup_insert_eq. simpl. unfold upd_subscriptions. simpl.
    by rewrite insert_insert_eq, <- app_assoc.
  - rewrite count_app. unfold count at 2. simpl.
    rewrite !bool_decide_eq_true_2 by done. simpl. lia.
Qed.

Lemma subscribe_always_creates_witness :
  (s1 <- subscribe healthy "/chatter" "std_msgs/msg/String" 3%nat ;;
   s2 <- subscribe healthy "/chatter" "std_msgs/msg/String" 3%nat ;;
   ret (s1, s2)) started
  = (Ok (4%nat, 5%nat),
     mkWorld
       (upd_subscriptions
          (<["/chatter" := {[5%nat]} ∪ ({[4%nat]} ∪ ∅)]>) (this started))
       (trace started
          ++ [NodeCreateSubscription 1 "std_msgs/msg/String" "/chatter" 3;
              NodeCreateSubscription 1 "std_msgs/msg/String" "/chatter" 3])).
Proof.
  exact (proj1 (proj2 (subscribe_always_creates healthy started 1%nat
                         "/chatter" "std_msgs/msg/String" 3%nat 3%nat
                         4%nat 5%nat eq_refl eq_refl eq_refl eq_refl))).
Defined.

Lemma session_eta s :
  mkSession (nodeName s) (namespace s) (spinTimeout s) (node s)
    (publishers s) (subscriptions s) (clients s) (actionClients s)
    (isInitialized s) = s.
Proof. by destruct s. Qed.

(** X7: subscribe followed by unsubscribe of the handle it returned puts
    the session back exactly as it was, when that handle was not tracked
    for the topic before, the topic was not mapped to an empty set, and
    both underlying calls return; the history holds one
    createSubscription and one destroySubscription more. *)
Theorem subscribe_unsubscribe_roundtrip (mw : Middleware) w n topicName
    msgType callback sub :
  isInitialized (this w) = true → node (this w) = Some n →
  let create := NodeCreateSubscription n msgType topicName callback in
  let destroy := NodeDestroySubscription n sub in
  mw (trace w) create = Ret sub →
  mw (trace w ++ [create]) destroy = Ret tt →
  sub ∉ default ∅ (subscriptions (this w) !! topicName) →
  subscriptions (this w) !! topicName ≠ Some ∅ →
  (s <- subscribe mw topicName msgType callback ;;
   unsubscribe mw topicName s) w
  = (Ok tt, mkWorld (this w) (trace w ++ [create; destroy])).
Proof.
  intros Hon Hn create destroy Hc Hd Hfresh Hne.
  rewrite (bind_ok _ _ _ _ _
             (subscribe_on mw w n topicName msgType callback sub Hon Hn Hc)).
  set (old := default ∅ (subscriptions (this w) !! topicName)) in *.
  rewrite (unsubscribe_tracked mw _ topicName sub ({[sub]} ∪ old) n).
  2: { simpl. apply lookup_insert_eq. }
  2: { apply elem_of_union_l, elem_of_singleton. reflexivity. }
  2: { exact Hn. }
  2: { exact Hd. }
  assert (Hrest : ({[sub]} ∪ old) ∖ {[sub]} = old).
  { apply set_eq. intros x.
    rewrite elem_of_difference, elem_of_union, elem_of_singleton.
    split.
    - intros [[-> | Hx] Hnx]; [by destruct Hnx | exact Hx].
    - intros Hx. split; [by right | by intros ->]. }
  rewrite Hrest. clear Hrest.
  destruct w as [[nn ns st nd pubs subs cls acs ini] t].
  unfold upd_subscriptions. simpl in *. rewrite <- app_assoc. simpl.
  do 3 f_equal.
  destruct (subs !! topicName) as [tracked_before |] eqn:Hold.
  - assert (tracked_before ≠ ∅) by congruence.
    subst old. simpl. rewrite bool_decide_eq_false_2.
    2: { intros Hz. apply size_empty_inv in Hz. by apply leibniz_equiv in Hz. }
    rewrite insert_insert_eq. by apply insert_id.
  - assert (Hnone : old = ∅) by (subst old; reflexivity).
    rewrite Hnone. rewrite bool_decide_eq_true_2 by apply size_empty.
    rewrite delete_insert_eq. by apply delete_id.
Qed.

Lemma subscribe_unsubscribe_roundtrip_witness :
  (s <- subscribe healthy "/chatter" "std_msgs/msg/String" 8%nat ;;
   unsubscribe healthy "/chatter" s) subscribed
  = (Ok tt,
     mkWorld (this subscribed)
       (trace subscribed
          ++ [NodeCreateSubscription 1 "std_msgs/msg/String" "/chatter" 8;
              NodeDestroySubscription 1 5])).
Proof.
  apply (subscribe_unsubscribe_roundtrip healthy subscribed 1%nat "/chatter"
           "std_msgs/msg/String" 8%nat 5%nat eq_refl eq_refl eq_refl eq_refl).
  - change (5%nat ∉ ({[4%nat]} ∪ ∅ : gset nat)).
    intros H. apply elem_of_union in H as [H | H].
    + apply elem_of_singleton in H. discriminate H.
    + by apply not_elem_of_empty in H.
  - intros H. apply (f_equal (fmap size)) in H. vm_compute in H.
    discriminate H.
Defined.

Lemma subscriptions_unwritten (mw : Middleware) op w :
  writes_subscriptions op = false →
  subscriptions (this (run_op mw op w).2) = subscriptions (this w).
Proof.
  intros Hw. destruct w as [[nn ns st nd pubs subs cls acs ini] t].
  destruct op; try discriminate Hw; exec; done.
Qed.

Lemma union_singleton_nonempty (h : nat) (X : gset nat) : {[h]} ∪ X ≠ ∅.
Proof.
  intros He. assert (Hin : h ∈ ({[h]} ∪ X)).
  { apply elem_of_union_l, elem_of_singleton. reflexivity. }
  rewrite He in Hin. by apply not_elem_of_empty in Hin.
Qed.

Lemma no_empty_sets_step (mw : Middleware) op w :
  no_empty_sets (this w) → no_empty_sets (this (run_op mw op w).2).
Proof.
  intros Hinv. destruct (writes_subscriptions op) eqn:Hw.
  2: { unfold no_empty_sets. by rewrite subscriptions_unwritten. }
  destruct w as [[nn ns st nd pubs subs cls acs ini] t].
  unfold no_empty_sets in *. simpl in Hinv.
  destruct op; try discriminate Hw; exec; intros t' S HS; simpl in *;
    try exact (Hinv _ _ HS); try (by rewrite lookup_empty in HS).
  all: destruct (decide (topicName = t')) as [<- | Hne];
    [| rewrite ?lookup_delete_ne, ?lookup_insert_ne in HS by done;
       exact (Hinv _ _ HS)].
  all: rewrite ?lookup_delete_eq, ?lookup_insert_eq in HS;
    try discriminate HS; injection HS as <-.
  all: try apply union_singleton_nonempty.
  all: match goal with
       | H : bool_decide (size ?X = 0%nat) = false |- _ =>
           apply bool_decide_eq_false in H; intros He; apply H;
           rewrite He; apply size_empty
       end.
Qed.

(** X8: in every reachable state no topic is mapped to an empty set of
    subscriptions: a topic is in the map exactly while at least one of its
    handles is tracked. *)
Theorem reachable_no_empty_set (mw : Middleware) w :
  reachable mw w →
  ∀ topicName,
    is_Some (subscriptions (this w) !! topicName)
    ↔ ∃ h, tracked (this w) topicName h.
Proof.
  intros Hr.
  assert (Hinv : no_empty_sets (this w)).
  { induction Hr as [nn ns st | w op _ IH].
    - intros t' S Hlk. simpl in Hlk. by rewrite lookup_empty in Hlk.
    - by apply no_empty_sets_step. }
  intros topicName. split.
  - intros [subs Hs]. specialize (Hinv topicName subs Hs).
    apply set_choose_L in Hinv as [h Hh]. exists h, subs. done.
  - intros (h & subs & Hs & _). by exists subs.
Qed.

Lemma reachable_no_empty_set_witness :
  let w := run_ops healthy
             [OpInit;
              OpSubscribe "/chatter" "std_msgs/msg/String" 3%nat;
              OpSubscribe "/scan" "sensor_msgs/msg/LaserScan" 3%nat;
              OpUnsubscribe "/chatter" 4%nat] fresh in
  (is_Some (subscriptions (this w) !! "/chatter")
   ↔ ∃ h, tracked (this w) "/chatter" h) ∧
  (is_Some (subscriptions (this w) !! "/scan")
   ↔ ∃ h, tracked (this w) "/scan" h) ∧
  subscriptions (this w) !! "/chatter" = None.
Proof.
  assert (Hr : reachable healthy
                 (run_ops healthy
                    [OpInit;
                     OpSubscribe "/chatter" "std_msgs/msg/String" 3%nat;
                     OpSubscribe "/scan" "sensor_msgs/msg/LaserScan" 3%nat;
                     OpUnsubscribe "/chatter" 4%nat] fresh)).
  { apply reachable_run, reach_new. }
  split; [exact (reachable_no_empty_set healthy _ Hr "/chatter") |].
  split; [exact (reachable_no_empty_set healthy _ Hr "/scan") | reflexivity].
Defined.

Lemma unsubscribe_raises (mw : Middleware) w topicName subscription subs n
    msg :
  subscriptions (this w) !! topicName = Some subs →
  subscription ∈ subs →
  node (this w) = Some n →
  mw (trace w) (NodeDestroySubscription n subscription) = Throw msg →
  unsubscribe mw topicName subscription w
  = (Err (MwError msg), record (NodeDestroySubscription n subscription) w).
Proof.
  intros Hs Hin Hn Hd. destruct w as [s t]. simpl in *.
  unfold_methods. simpl. rewrite Hs.
  rewrite (bool_decide_eq_true_2 _ Hin). simpl. rewrite Hn. simpl.
  by rewrite Hd.
Qed.

Lemma unsubscribe_no_node (mw : Middleware) w topicName subscription subs :
  subscriptions (this w) !! topicName = Some subs →
  subscription ∈ subs →
  node (this w) = None →
  unsubscribe mw topicName subscription w = (Err null_deref, w).
Proof.
  intros Hs Hin Hn. destruct w as [s t]. simpl in *.
  unfold_methods. simpl. rewrite Hs.
  rewrite (bool_decide_eq_true_2 _ Hin). simpl. by rewrite Hn.
Qed.

Lemma tracked_after_removal (m : gmap string (gset nat)) topicName g
    (h : nat) t' (h' : nat) :
  m !! topicName = Some g →
  (t', h') ≠ (topicName, h) →
  (∃ S, (if bool_decide (size (g ∖ {[h]}) = 0%nat)
         then delete topicName m
         else <[topicName := g ∖ {[h]}]> m) !! t' = Some S ∧ h' ∈ S)
  ↔ (∃ S, m !! t' = Some S ∧ h' ∈ S).
Proof.
  intros Hg Hne. destruct (decide (t' = topicName)) as [-> | Ht].
  - assert (Hh : h' ≠ h) by congruence.
    destruct (bool_decide (size (g ∖ {[h]}) = 0%nat)) eqn:Hz.
    + apply bool_decide_eq_true in Hz. apply size_empty_inv in Hz.
      apply leibniz_equiv in Hz. rewrite lookup_delete_eq. split.
      * intros (S & HS & _). discriminate HS.
      * intros (S & HS & Hin). rewrite Hg in HS. injection HS as <-.
        assert (Hrest : h' ∈ g ∖ {[h]}).
        { apply elem_of_difference. split; [done |].
          by rewrite elem_of_singleton. }
        rewrite Hz in Hrest. by apply not_elem_of_empty in Hrest.
    + rewrite lookup_insert_eq. split.
      * intros (S & [= <-] & Hin). exists g. split; [done |].
        by apply elem_of_difference in Hin as [Hin _].
      * intros (S & HS & Hin). rewrite Hg in HS. injection HS as <-.
        exists (g ∖ {[h]}). split; [done |].
        apply elem_of_difference. split; [done |].
        by rewrite elem_of_singleton.
  - destruct (bool_decide (size (g ∖ {[h]}) = 0%nat)).
    + by rewrite lookup_delete_ne.
    + by rewrite lookup_insert_ne.
Qed.

(** X9: unsubscribe touches one handle of one topic only: whatever it
    returns, every other handle of that topic and every handle of every
    other topic is tracked afterwards exactly when it was tracked before;
    and whenever unsubscribe returns normally, the handle it was given
    is not tracked afterwards. *)
Theorem unsubscribe_only_that_handle (mw : Middleware) w topicName
    subscription :
  (∀ t' h',
     (t', h') ≠ (topicName, subscription) →
     tracked (this (unsubscribe mw topicName subscription w).2) t' h'
     ↔ tracked (this w) t' h') ∧
  ((unsubscribe mw topicName subscription w).1 = Ok tt →
   ¬ tracked (this (unsubscribe mw topicName subscription w).2)
       topicName subscription).
Proof.
  destruct (subscriptions (this w) !! topicName) as [g |] eqn:Hg.
  2: { rewrite unsubscribe_untracked by (by rewrite Hg).
       split; [done |]. intros _ (S & HS & _). simpl in HS. congruence. }
  destruct (decide (subscription ∈ g)) as [Hin | Hout].
  2: { rewrite unsubscribe_untracked by (by rewrite Hg).
       split; [done |]. intros _ (S & HS & Hin). simpl in HS.
       rewrite Hg in HS. injection HS as <-. done. }
  destruct (node (this w)) as [n |] eqn:Hn.
  2: { rewrite (unsubscribe_no_node mw w topicName subscription g) by done.
       split; [done | discriminate]. }
  destruct (mw (trace w) (NodeDestroySubscription n subscription))
    as [[] | msg] eqn:Hd.
  2: { rewrite (unsubscribe_raises mw w topicName subscription g n msg)
         by done.
       split; [done | discriminate]. }
  rewrite (unsubscribe_tracked mw w topicName subscription g n) by done.
  unfold tracked. simpl. split.
  - intros t' h' Hne. by apply tracked_after_removal.
  - intros _ (S & HS & Hin').
    destruct (bool_decide (size (g ∖ {[subscription]}) = 0%nat)).
    + rewrite lookup_delete_eq in HS. discriminate HS.
    + rewrite lookup_insert_eq in HS. injection HS as <-.
      apply elem_of_difference in Hin' as [_ Hin'].
      apply Hin', elem_of_singleton. reflexivity.
Qed.

Lemma unsubscribe_only_that_handle_witness :
  let both :=
    run_ops healthy
      [OpInit; OpSubscribe "/chatter" "std_msgs/msg/String" 3%nat;
       OpSubscribe "/chatter" "std_msgs/msg/String" 9%nat] fresh in
  (tracked (this (unsubscribe healthy "/chatter" 4%nat both).2) "/chatter"
     5%nat
   ↔ tracked (this both) "/chatter" 5%nat) ∧
  ¬ tracked (this (unsubscribe healthy "/chatter" 4%nat both).2) "/chatter"
      4%nat.
Proof.
  intros both.
  destruct (unsubscribe_only_that_handle healthy both "/chatter" 4%nat)
    as [Hother Hgone].
  split; [apply Hother; discriminate | apply Hgone; reflexivity].
Defined.

(** X10: when the underlying destroySubscription raises, unsubscribe
    passes the error on untouched and leaves the session as it was: the
    handle stays tracked, so the call can be made again. *)
Theorem unsubscribe_destroy_failure (mw : Middleware) w topicName
    subscription subs n msg :
  subscriptions (this w) !! topicName = Some subs →
  subscription ∈ subs →
  node (this w) = Some n →
  mw (trace w) (NodeDestroySubscription n subscription) = Throw msg →
  unsubscribe mw topicName subscription w
  = (Err (MwError msg), record (NodeDestroySubscription n subscription) w) ∧
  tracked (this (unsubscribe mw topicName subscription w).2) topicName
    subscription.
Proof.
  intros Hs Hin Hn Hd.
  rewrite (unsubscribe_raises mw w topicName subscription subs n msg)
    by done.
  split; [done |]. by exists subs.
Qed.

Lemma unsubscribe_destroy_failure_witness :
  unsubscribe destroy_fails "/chatter" 4%nat subscribed
  = (Err (MwError "unknown handle"),
     record (NodeDestroySubscription 1 4) subscribed) ∧
  tracked (this (unsubscribe destroy_fails "/chatter" 4%nat subscribed).2)
    "/chatter" 4%nat.
Proof.
  assert (Hin : 4%nat ∈ ({[4%nat]} ∪ ∅ : gset nat)).
  { apply elem_of_union_l, elem_of_singleton. reflexivity. }
  exact (unsubscribe_destroy_failure destroy_fails subscribed "/chatter"
           4%nat ({[4%nat]} ∪ ∅) 1%nat "unknown handle" eq_refl Hin eq_refl
           eq_refl).
Defined.

(** ** Publishers, further *)

Lemma createPublisher_raises (mw : Middleware) w n topicName msgType msg :
  isInitialized (this w) = true → node (this w) = Some n →
  publishers (this w) !! topicName = None →
  mw (trace w) (NodeCreatePublisher n msgType topicName) = Throw msg →
  createPublisher mw topicName msgType w
  = (Err (MwError msg), record (NodeCreatePublisher n msgType topicName) w).
Proof.
  intros Hon Hn Hp Hc. unfold createPublisher.
  rewrite (bind_ok _ _ w tt w).
  2: { apply checkInit_passes, ready_true. eauto. }
  unfold_methods. simpl. rewrite Hp, Hn. simpl. by rewrite Hc.
Qed.

(** X11: when the underlying createPublisher raises, the facade's
    createPublisher passes the error on untouched and caches nothing, so
    the next call on the topic asks rclnodejs again; once a creation
    returns, that handle is the one cached and returned. *)
Theorem createPublisher_failure_not_cached (mw : Middleware) w n topicName
    ty1 ty2 msg p :
  isInitialized (this w) = true → node (this w) = Some n →
  publishers (this w) !! topicName = None →
  let create1 := NodeCreatePublisher n ty1 topicName in
  let create2 := NodeCreatePublisher n ty2 topicName in
  mw (trace w) create1 = Throw msg →
  mw (trace w ++ [create1]) create2 = Ret p →
  createPublisher mw topicName ty1 w = (Err (MwError msg), record create1 w) ∧
  createPublisher mw topicName ty2 (record create1 w)
  = (Ok (Some p),
     mkWorld (upd_publishers (<[topicName := p]>) (this w))
       (trace w ++ [create1; create2])).
Proof.
  intros Hon Hn Hp create1 create2 H1 H2.
  split; [by apply createPublisher_raises |].
  rewrite (createPublisher_new mw (record create1 w) n topicName ty2 p)
    by done.
  simpl. by rewrite <- app_assoc.
Qed.

Lemma createPublisher_failure_not_cached_witness :
  createPublisher type_checked "/cmd_vel" "geometry_msgs/Twist" started
  = (Err (MwError "bad type"),
     record (NodeCreatePublisher 1 "geometry_msgs/Twist" "/cmd_vel") started) ∧
  createPublisher type_checked "/cmd_vel" "geometry_msgs/msg/Twist"
    (record (NodeCreatePublisher 1 "geometry_msgs/Twist" "/cmd_vel") started)
  = (Ok (Some 5%nat),
     mkWorld (upd_publishers (<["/cmd_vel" := 5%nat]>) (this started))
       (trace started
          ++ [NodeCreatePublisher 1 "geometry_msgs/Twist" "/cmd_vel";
              NodeCreatePublisher 1 "geometry_msgs/msg/Twist" "/cmd_vel"])).
Proof.
  exact (createPublisher_failure_not_cached type_checked started 1%nat
           "/cmd_vel" "geometry_msgs/Twist" "geometry_msgs/msg/Twist"
           "bad type" 5%nat eq_refl eq_refl eq_refl eq_refl eq_refl).
Defined.

Lemma publish_steps (mw : Middleware) w topicName msgType msg p w1 :
  createPublisher mw topicName msgType w = (Ok (Some p), w1) →
  publish mw topicName msgType msg w
  = (of_outcome (mw (trace w1) (PublisherPublish p msg)),
     record (PublisherPublish p msg) w1).
Proof.
  intros Hc. unfold publish. rewrite (bind_ok _ _ _ _ _ Hc).
  by rewrite call_eq.
Qed.

(** X12: on an initialized session publish hands the message to the
    topic's publisher exactly once and ends as that underlying publish
    call does.  For a topic already cached it makes no other call; for a
    new topic it creates and caches the publisher first; and when that
    creation raises, nothing is published and nothing is cached. *)
Theorem publish_forwards (mw : Middleware) w n topicName msgType msg :
  isInitialized (this w) = true → node (this w) = Some n →
  let create := NodeCreatePublisher n msgType topicName in
  (∀ p, publishers (this w) !! topicName = Some p →
        publish mw topicName msgType msg w
        = (of_outcome (mw (trace w) (PublisherPublish p msg)),
           record (PublisherPublish p msg) w)) ∧
  (∀ p, publishers (this w) !! topicName = None →
        mw (trace w) create = Ret p →
        publish mw topicName msgType msg w
        = (of_outcome (mw (trace w ++ [create]) (PublisherPublish p msg)),
           mkWorld (upd_publishers (<[topicName := p]>) (this w))
             (trace w ++ [create; PublisherPublish p msg]))) ∧
  (∀ cause, publishers (this w) !! topicName = None →
            mw (trace w) create = Throw cause →
            publish mw topicName msgType msg w
            = (Err (MwError cause), record create w) ∧
            count is_publish (trace (record create w))
            = count is_publish (trace w)).
Proof.
  intros Hon Hn create.
  assert (Hr : ready (this w) = true) by (apply ready_true; eauto).
  split; [| split].
  - intros p Hp. apply publish_steps. by apply createPublisher_cached.
  - intros p Hp Hc.
    rewrite (publish_steps mw w topicName msgType msg p _
               (createPublisher_new mw w n topicName msgType p Hon Hn Hp Hc)).
    unfold record. simpl. by rewrite <- app_assoc.
  - intros cause Hp Hc. split.
    + unfold publish.
      by rewrite (bind_err _ _ _ _ _
                    (createPublisher_raises mw w n topicName msgType cause
                       Hon Hn Hp Hc)).
    + simpl. rewrite count_app. unfold count at 2. simpl. lia.
Qed.

Lemma publish_forwards_witness :
  publish healthy "/cmd_vel" "geometry_msgs/msg/Twist" (JObj 2) published
  = (Ok tt, record (PublisherPublish 4 (JObj 2)) published) ∧
  publish healthy "/chatter" "std_msgs/msg/String" (JStr "hi") published
  = (Ok tt,
     mkWorld (upd_publishers (<["/chatter" := 5%nat]>) (this published))
       (trace published
          ++ [NodeCreatePublisher 1 "std_msgs/msg/String" "/chatter";
              PublisherPublish 5 (JStr "hi")])) ∧
  publish creation_fails "/chatter" "std_msgs/msg/String" (JStr "hi")
    published
  = (Err (MwError "bad type"),
     record (NodeCreatePublisher 1 "std_msgs/msg/String" "/chatter")
       published).
Proof.
  split; [| split].
  - exact (proj1 (publish_forwards healthy published 1%nat "/cmd_vel"
                    "geometry_msgs/msg/Twist" (JObj 2) eq_refl eq_refl)
             4%nat eq_refl).
  - exact (proj1 (proj2 (publish_forwards healthy published 1%nat "/chatter"
                           "std_msgs/msg/String" (JStr "hi") eq_refl eq_refl))
             5%nat eq_refl eq_refl).
  - exact (proj1 (proj2 (proj2 (publish_forwards creation_fails published
                                  1%nat "/chatter" "std_msgs/msg/String"
                                  (JStr "hi") eq_refl eq_refl))
                    "bad type" eq_refl eq_refl)).
Defined.

(** ** Service and action clients, further *)

Lemma returning_world {A} (f : A → Returned) (m : M A) w :
  (returning f m w).2 = (m w).2.
Proof. unfold returning, bind, ret. by destruct (m w) as [[a | e] w']. Qed.

Lemma service_client_new (mw : Middleware) w n serviceName serviceType c :
  node (this w) = Some n →
  clients (this w) !! serviceName = None →
  mw (trace w) (NodeCreateClient n serviceType serviceName) = Ret c →
  service_client mw serviceName serviceType w
  = (Ok c,
     mkWorld (upd_clients (<[serviceName := c]>) (this w))
       (trace w ++ [NodeCreateClient n serviceType serviceName])).
Proof.
  intros Hn Hc Hmw. destruct w as [s t]. simpl in *.
  unfold_methods. simpl. rewrite Hc. simpl. rewrite Hn. simpl.
  by rewrite Hmw.
Qed.

Lemma service_client_cached (mw : Middleware) w serviceName serviceType c :
  clients (this w) !! serviceName = Some c →
  service_client mw serviceName serviceType w = (Ok c, w).
Proof.
  intros Hc. unfold service_client, bind, gets, ret. simpl. by rewrite Hc.
Qed.

Lemma callService_world (mw : Middleware) w serviceName serviceType request
    timeoutMs c w1 :
  ready (this w) = true →
  service_client mw serviceName serviceType w = (Ok c, w1) →
  ∃ tail,
    (callService mw serviceName serviceType request timeoutMs w).2
    = mkWorld (this w1)
        (trace w1 ++ ClientWaitForService c (default 2000 timeoutMs) :: tail) ∧
    (tail = [] ∨ tail = [ClientSendRequest c request]).
Proof.
  intros Hr Hres.
  rewrite (callService_steps mw w serviceName serviceType request timeoutMs
             c w1 Hr Hres).
  destruct (mw (trace w1) (ClientWaitForService c (default 2000 timeoutMs)))
    as [[|] | msg].
  - exists [ClientSendRequest c request]. split; [| by right].
    unfold record. simpl. by rewrite <- app_assoc.
  - exists []. split; [done | by left].
  - exists []. split; [done | by left].
Qed.

(** X13: the client callService creates for a service is cached before
    the availability wait, so it stays cached when the wait fails or
    raises: two callService calls on a service new to the session create
    one client between them, whatever the first call's outcome, whatever
    types and timeouts they name, and each call makes its own
    availability wait. *)
Theorem callService_client_reused (mw : Middleware) w n serviceName ty1 req1
    tm1 ty2 req2 tm2 c :
  isInitialized (this w) = true → node (this w) = Some n →
  clients (this w) !! serviceName = None →
  mw (trace w) (NodeCreateClient n ty1 serviceName) = Ret c →
  let w2 := run_ops mw [OpCallService serviceName ty1 req1 tm1;
                        OpCallService serviceName ty2 req2 tm2] w in
  clients (this w2) !! serviceName = Some c ∧
  count (is_create_client serviceName) (trace w2)
  = S (count (is_create_client serviceName) (trace w)) ∧
  count is_wait_for_service (trace w2)
  = S (S (count is_wait_for_service (trace w))).
Proof.
  intros Hon Hn Hc Hmw w2. subst w2. simpl.
  rewrite !returning_world.
  assert (Hr : ready (this w) = true) by (apply ready_true; eauto).
  destruct (callService_world mw w serviceName ty1 req1 tm1 c _ Hr
              (service_client_new mw w n serviceName ty1 c Hn Hc Hmw))
    as (tail1 & -> & Ht1).
  set (w1 := mkWorld _ (_ ++ ClientWaitForService c _ :: tail1)).
  assert (Hr1 : ready (this w1) = true) by (apply ready_true; simpl; eauto).
  assert (Hc1 : clients (this w1) !! serviceName = Some c).
  { simpl. apply lookup_insert_eq. }
  destruct (callService_world mw w1 serviceName ty2 req2 tm2 c _ Hr1
              (service_client_cached mw w1 serviceName ty2 c Hc1))
    as (tail2 & -> & Ht2).
  split; [exact Hc1 |]. subst w1. simpl.
  rewrite !count_app.
  destruct Ht1 as [-> | ->], Ht2 as [-> | ->]; unfold count; simpl;
    rewrite bool_decide_eq_true_2 by done; simpl; split; lia.
Qed.

Lemma callService_client_reused_witness :
  let w2 :=
    run_ops service_down
      [OpCallService "/add_two_ints" "example_interfaces/srv/AddTwoInts"
         (JNum 3) None;
       OpCallService "/add_two_ints" "example_interfaces/srv/AddTwoInts"
         (JNum 4) (Some 50)] started in
  clients (this w2) !! "/add_two_ints" = Some 4%nat ∧
  count (is_create_client "/add_two_ints") (trace w2)
  = S (count (is_create_client "/add_two_ints") (trace started)) ∧
  count is_wait_for_service (trace w2)
  = S (S (count is_wait_for_service (trace started))).
Proof.
  exact (callService_client_reused service_down started 1%nat
           "/add_two_ints" "example_interfaces/srv/AddTwoInts" (JNum 3) None
           "example_interfaces/srv/AddTwoInts" (JNum 4) (Some 50) 4%nat
           eq_refl eq_refl eq_refl eq_refl).
Defined.

Lemma action_client_caches (mw : Middleware) w actionName actionType c w1 :
  action_client mw actionName actionType w = (Ok c, w1) →
  actionClients (this w1) !! actionName = Some c.
Proof.
  destruct w as [s t]. unfold_methods. simpl.
  destruct (actionClients s !! actionName) as [c0 |] eqn:Hc; simpl.
  - intros [= <- <-]. done.
  - destruct (mw t (RclActionClient (node s) actionType actionName)); simpl;
      [| discriminate].
    intros [= <- <-]. simpl. apply lookup_insert_eq.
Qed.

(** X14: on an initialized session whose action client is resolved, when
    the wait for the action server answers unavailable, sendActionGoal
    fails with the action-server-not-available error naming the action,
    submits no goal, and leaves the client cached under the action's
    name. *)
Theorem sendActionGoal_unavailable (mw : Middleware) w actionName actionType
    goal onFeedback timeoutMs c w1 :
  ready (this w) = true →
  action_client mw actionName actionType w = (Ok c, w1) →
  let wait := ActionWaitForServer c (default 2000 timeoutMs) in
  mw (trace w1) wait = Ret false →
  sendActionGoal mw actionName actionType goal onFeedback timeoutMs w
  = (Err (ActionServerUnavailable actionName), record wait w1) ∧
  count is_send_goal (trace (record wait w1)) = count is_send_goal (trace w) ∧
  actionClients (this (record wait w1)) !! actionName = Some c.
Proof.
  intros Hr Hres wait Hw. split; [| split].
  - unfold sendActionGoal.
    rewrite (bind_ok _ _ w tt w (checkInit_passes w Hr)).
    rewrite (bind_ok _ _ w c w1 Hres).
    unfold bind. rewrite call_eq. fold wait. by rewrite Hw.
  - simpl. rewrite count_app.
    rewrite (action_client_history mw w actionName actionType c w1 Hres
               is_send_goal (λ _ _ _, eq_refl)).
    unfold count at 2. simpl. lia.
  - simpl. by apply (action_client_caches mw w actionName actionType).
Qed.

Lemma sendActionGoal_unavailable_witness :
  let w1 :=
    mkWorld (upd_actionClients (<["/fibonacci" := 4%nat]>) (this started))
      (trace started
         ++ [RclActionClient (Some 1%nat) "action_tutorials/action/Fibonacci"
               "/fibonacci"]) in
  sendActionGoal server_down "/fibonacci" "action_tutorials/action/Fibonacci"
    (JNum 5) None None started
  = (Err (ActionServerUnavailable "/fibonacci"),
     record (ActionWaitForServer 4 2000) w1) ∧
  count is_send_goal (trace (record (ActionWaitForServer 4 2000) w1))
  = count is_send_goal (trace started) ∧
  actionClients (this (record (ActionWaitForServer 4 2000) w1))
    !! "/fibonacci" = Some 4%nat.
Proof.
  exact (sendActionGoal_unavailable server_down started "/fibonacci"
           "action_tutorials/action/Fibonacci" (JNum 5) None None 4%nat _
           eq_refl eq_refl eq_refl).
Defined.

Lemma handles_stable (mw : Middleware) op w :
  op ≠ OpShutdown →
  (∀ k h, publishers (this w) !! k = Some h →
          publishers (this (run_op mw op w).2) !! k = Some h) ∧
  (∀ k h, clients (this w) !! k = Some h →
          clients (this (run_op mw op w).2) !! k = Some h) ∧
  (∀ k h, actionClients (this w) !! k = Some h →
          actionClients (this (run_op mw op w).2) !! k = Some h).
Proof.
  intros Hop. destruct w as [[nn ns st nd pubs subs cls acs ini] t].
  repeat split; intros k h Hk; simpl in Hk;
    destruct op; try congruence; exec;
    first [ exact Hk
          | rewrite lookup_insert_ne; [exact Hk | intros ->; congruence] ].
Qed.

(** X15: a publisher, service client or action client, once cached under
    a name, stays cached under that name with the same handle through
    every run of methods that does not call shutdown: no method replaces
    or drops a single entry. *)
Theorem cached_handles_stable (mw : Middleware) ops w :
  Forall (λ op, op ≠ OpShutdown) ops →
  (∀ k h, publishers (this w) !! k = Some h →
          publishers (this (run_ops mw ops w)) !! k = Some h) ∧
  (∀ k h, clients (this w) !! k = Some h →
          clients (this (run_ops mw ops w)) !! k = Some h) ∧
  (∀ k h, actionClients (this w) !! k = Some h →
          actionClients (this (run_ops mw ops w)) !! k = Some h).
Proof.
  intros Hops. revert w.
  induction Hops as [| op ops Hop _ IH]; intros w; [done |].
  simpl. destruct (handles_stable mw op w Hop) as (Hp & Hc & Ha).
  destruct (IH (run_op mw op w).2) as (Hp' & Hc' & Ha').
  repeat split; intros k h Hk; eauto.
Qed.

Lemma cached_handles_stable_witness :
  publishers
    (this (run_ops service_down
             [OpCallService "/add_two_ints"
                "example_interfaces/srv/AddTwoInts" (JNum 3) None;
              OpPublish "/chatter" "std_msgs/msg/String" (JStr "hi");
              OpCreatePublisher "/cmd_vel" "std_msgs/msg/String";
              OpInit] published))
    !! "/cmd_vel" = Some 4%nat.
Proof.
  refine (proj1 (cached_handles_stable service_down _ published _)
            "/cmd_vel" 4%nat eq_refl).
  repeat constructor; discriminate.
Defined.

(** ** Parameters, further *)

(** X16: on an initialized session getParam asks the node once and
    returns the parameter's value; when the node has no such parameter it
    returns undefined instead of raising.  It never changes the
    session. *)
Theorem getParam_missing_is_undefined (mw : Middleware) w n name :
  isInitialized (this w) = true → node (this w) = Some n →
  let ask := NodeGetParameter n name in
  (mw (trace w) ask = Ret None →
   getParam mw name w = (Ok JUndefined, record ask w)) ∧
  (∀ v, mw (trace w) ask = Ret (Some v) →
        getParam mw name w = (Ok v, record ask w)) ∧
  (∀ msg, mw (trace w) ask = Throw msg →
          getParam mw name w = (Err (MwError msg), record ask w)).
Proof.
  intros Hon Hn ask.
  assert (Hget : getParam mw name w
                 = match mw (trace w) ask with
                   | Ret r => (Ok (default JUndefined r), record ask w)
                   | Throw msg => (Err (MwError msg), record ask w)
                   end).
  { unfold getParam. rewrite (bind_ok _ _ w tt w).
    2: { apply checkInit_passes, ready_true. eauto. }
    rewrite (bind_ok _ _ w n w (the_node_some w n Hn)).
    unfold bind. rewrite call_eq. fold ask.
    by destruct (mw (trace w) ask). }
  repeat split; [intros Hm | intros v Hm | intros msg Hm];
    by rewrite Hget, Hm.
Qed.

Lemma getParam_missing_is_undefined_witness :
  getParam with_rate "frame_id" started
  = (Ok JUndefined, record (NodeGetParameter 1 "frame_id") started) ∧
  getParam with_rate "rate" started
  = (Ok (JNum 10), record (NodeGetParameter 1 "rate") started).
Proof.
  split.
  - exact (proj1 (getParam_missing_is_undefined with_rate started 1%nat
                    "frame_id" eq_refl eq_refl) eq_refl).
  - exact (proj1 (proj2 (getParam_missing_is_undefined with_rate started
                           1%nat "rate" eq_refl eq_refl)) (JNum 10) eq_refl).
Defined.

(** X17: on an initialized session setParam builds a parameter object
    from the name and the value and hands it to the node, without asking
    first whether the parameter exists; it ends as the node's
    setParameter call does.  When building the object raises, the node is
    not called.  The session is never changed. *)
Theorem setParam_forwards (mw : Middleware) w n name value :
  isInitialized (this w) = true → node (this w) = Some n →
  let build := RclParameter name value in
  (∀ p, mw (trace w) build = Ret p →
        setParam mw name value w
        = (of_outcome (mw (trace w ++ [build]) (NodeSetParameter n p)),
           mkWorld (this w) (trace w ++ [build; NodeSetParameter n p]))) ∧
  (∀ msg, mw (trace w) build = Throw msg →
          setParam mw name value w
          = (Err (MwError msg), mkWorld (this w) (trace w ++ [build]))).
Proof.
  intros Hon Hn build.
  assert (Hset : setParam mw name value w
                 = match mw (trace w) build with
                   | Ret p =>
                       (of_outcome
                          (mw (trace w ++ [build]) (NodeSetParameter n p)),
                        record (NodeSetParameter n p) (record build w))
                   | Throw msg => (Err (MwError msg), record build w)
                   end).
  { unfold setParam. rewrite (bind_ok _ _ w tt w).
    2: { apply checkInit_passes, ready_true. eauto. }
    rewrite (bind_ok _ _ w n w (the_node_some w n Hn)).
    unfold bind. rewrite call_eq. fold build.
    destruct (mw (trace w) build); simpl; [| done]. by rewrite call_eq. }
  split; [intros p Hm | intros msg Hm]; rewrite Hset, Hm; [| done].
  unfold record. simpl. by rewrite <- app_assoc.
Qed.

Lemma setParam_forwards_witness :
  setParam healthy "rate" (JNum 20) started
  = (Ok tt,
     mkWorld (this started)
       (trace started
          ++ [RclParameter "rate" (JNum 20); NodeSetParameter 1 4])) ∧
  setParam creation_fails "rate" (JStr "fast") started
  = (Err (MwError "bad value"),
     mkWorld (this started)
       (trace started ++ [RclParameter "rate" (JStr "fast")])).
Proof.
  split.
  - exact (proj1 (setParam_forwards healthy started 1%nat "rate" (JNum 20)
                    eq_refl eq_refl) 4%nat eq_refl).
  - exact (proj2 (setParam_forwards creation_fails started 1%nat "rate"
                    (JStr "fast") eq_refl eq_refl) "bad value" eq_refl).
Defined.

(** ** Shutdown and restart *)

(** X18: shutdown followed by init gives a session with a new node and
    four empty caches: createPublisher on a topic that was cached before
    the shutdown creates a publisher again, on the new node, and returns
    the new handle, not the old one. *)
Theorem restart_starts_fresh (mw : Middleware) w n n' topicName msgType
    (stale : Handle) p :
  isInitialized (this w) = true → node (this w) = Some n →
  publishers (this w) !! topicName = Some stale →
  let node_create := RclNode (nodeName (this w)) (namespace (this w)) in
  let spin := NodeSpin n' (spinTimeout (this w)) in
  let note := ConsoleInfo ("ROS 2 node " +:+ dq +:+ nodeName (this w)
                           +:+ dq +:+ " initialized.") in
  let create := NodeCreatePublisher n' msgType topicName in
  let down := trace w ++ [NodeDestroy n; RclShutdown] in
  mw (trace w) (NodeDestroy n) = Ret tt →
  mw (trace w ++ [NodeDestroy n]) RclShutdown = Ret tt →
  mw down RclInit = Ret tt →
  mw (down ++ [RclInit]) node_create = Ret n' →
  mw (down ++ [RclInit; node_create]) spin = Ret tt →
  mw (down ++ [RclInit; node_create; spin; note]) create = Ret p →
  (shutdown mw ;;; init mw ;;; createPublisher mw topicName msgType) w
  = (Ok (Some p),
     mkWorld
       (mkSession (nodeName (this w)) (namespace (this w))
          (spinTimeout (this w)) (Some n') (<[topicName := p]> ∅) ∅ ∅ ∅ true)
       (down ++ [RclInit; node_create; spin; note; create])).
Proof.
  intros Hon Hn Hstale node_create spin note create down Hd Hs Hi Hc Hsp Hp.
  rewrite (bind_ok _ _ _ _ _ (shutdown_on mw w n Hon Hn Hd Hs)).
  set (off := mkWorld (constructor _ _ _) _).
  rewrite (bind_ok _ _ _ _ _
             (init_on mw off n' eq_refl Hi Hc Hsp)).
  set (on := mkWorld (set_isInitialized true _) _).
  rewrite (createPublisher_new mw on n' topicName msgType p eq_refl eq_refl).
  - subst on off. simpl. by rewrite <- app_assoc.
  - simpl. apply lookup_empty.
  - subst on off. simpl. exact Hp.
Qed.

Lemma restart_starts_fresh_witness :
  (shutdown healthy ;;; init healthy ;;;
   createPublisher healthy "/cmd_vel" "geometry_msgs/msg/Twist") published
  = (Ok (Some 11%nat),
     mkWorld
       (mkSession "ros2_interface_node" "/" 100 (Some 8%nat)
          (<["/cmd_vel" := 11%nat]> ∅) ∅ ∅ ∅ true)
       ((trace published ++ [NodeDestroy 1; RclShutdown])
          ++ [RclInit; RclNode "ros2_interface_node" "/"; NodeSpin 8 100;
              ConsoleInfo ("ROS 2 node " +:+ dq +:+ "ros2_interface_node"
                           +:+ dq +:+ " initialized.");
              NodeCreatePublisher 8 "geometry_msgs/msg/Twist" "/cmd_vel"])).
Proof.
  exact (restart_starts_fresh healthy published 1%nat 8%nat "/cmd_vel"
           "geometry_msgs/msg/Twist" 4%nat 11%nat eq_refl eq_refl eq_refl
           eq_refl eq_refl eq_refl eq_refl eq_refl eq_refl).
Defined.

(** X19: when destroying the node raises, or the node is destroyed and
    shutting the context down raises, shutdown passes the error on with
    the four caches already emptied but the flag still set and the node
    handle still held: the guard keeps passing afterwards.  In the first
    case the context shutdown is not attempted. *)
Theorem shutdown_teardown_failure (mw : Middleware) w n msg :
  isInitialized (this w) = true → node (this w) = Some n →
  let cleared :=
    mkSession (nodeName (this w)) (namespace (this w)) (spinTimeout (this w))
      (Some n) ∅ ∅ ∅ ∅ true in
  (mw (trace w) (NodeDestroy n) = Throw msg →
   shutdown mw w
   = (Err (MwError msg), mkWorld cleared (trace w ++ [NodeDestroy n])) ∧
   count is_context_shutdown (trace w ++ [NodeDestroy n])
   = count is_context_shutdown (trace w)) ∧
  (mw (trace w) (NodeDestroy n) = Ret tt →
   mw (trace w ++ [NodeDestroy n]) RclShutdown = Throw msg →
   shutdown mw w
   = (Err (MwError msg),
      mkWorld cleared (trace w ++ [NodeDestroy n; RclShutdown]))) ∧
  (∀ history, _checkInit (mkWorld cleared history)
              = (Ok tt, mkWorld cleared history)).
Proof.
  intros Hon Hn cleared. split; [| split].
  - intros Hd. split.
    + destruct w as [[nn ns st nd pubs subs cls acs ini] t].
      simpl in *. subst ini nd cleared. unfold_methods. simpl.
      by rewrite Hd.
    + rewrite count_app. unfold count at 2. simpl. lia.
  - intros Hd Hs. destruct w as [[nn ns st nd pubs subs cls acs ini] t].
    simpl in *. subst ini nd cleared. unfold_methods. simpl.
    rewrite Hd. simpl. rewrite Hs. simpl. by rewrite <- app_assoc.
  - intros history. by apply checkInit_passes.
Qed.

Lemma shutdown_teardown_failure_witness :
  let cleared :=
    mkSession "ros2_interface_node" "/" 100 (Some 1%nat) ∅ ∅ ∅ ∅ true in
  shutdown destroy_fails subscribed
  = (Err (MwError "node busy"),
     mkWorld cleared (trace subscribed ++ [NodeDestroy 1])) ∧
  shutdown context_stuck subscribed
  = (Err (MwError "context in use"),
     mkWorld cleared (trace subscribed ++ [NodeDestroy 1; RclShutdown])).
Proof.
  split.
  - exact (proj1 (proj1 (shutdown_teardown_failure destroy_fails subscribed
                           1%nat "node busy" eq_refl eq_refl) eq_refl)).
  - exact (proj1 (proj2 (shutdown_teardown_failure context_stuck subscribed
                           1%nat "context in use" eq_refl eq_refl))
             eq_refl eq_refl).
Defined.
